(** * FS_STM32F4xxUSART: ring buffers of the U(S)ART driver

    A shallow embedding of the buffer code of [fs_stm32f4xxusart.c]
    ([bufferInit], [bufferPeek], [bufferPush], [bufferPop], [writeBytes],
    [writeLine], [rxBytesAvailable], [readBytes], [readLine],
    [readLineTruncate]) and the properties of the driver's specification
    that concern it.

    Conventions.
    - A [uint16_t] is a [Z]; every store into a [uint16_t] object goes
      through [u16].  Operands of an arithmetic expression are promoted to
      [int] (32 bits on the target), so the sums and differences of two or
      three [uint16_t] values inside an expression are exact.
    - A [char] is the [Z] of its bit pattern, [0 .. 255].
    - [masterBuffer] and the caller's buffers are maps from offsets to
      bytes.  C gives no meaning to an access outside an array; here such an
      access reads or writes the map at that offset.
    - A FreeRTOS mutex is the boolean "taken".  [xSemaphoreTake] with the
      bounded wait fails when the mutex stays taken and succeeds, taking it,
      otherwise. *)

From Stdlib Require Import ZArith List Bool Lia.
Import ListNotations.
Open Scope Z_scope.

(** ** Machine data *)

Definition byte := Z.

Definition u16 (x : Z) : Z := x mod 65536.

(** ['\n'] *)
Definition LF : byte := 10.

Definition Memory := Z -> byte.

Definition store (m : Memory) (a : Z) (v : byte) : Memory :=
  fun x => if x =? a then v else m x.

(** [memcpy(&dst[dstOff], &src[srcOff], n)].  A negative [n] is a huge
    [size_t] in C, where the call has no defined meaning; here it copies
    nothing.  [readLineTruncate] passes one when the line lies across the
    end of the region and is truncated to fewer bytes than lie before the
    end; the properties below that describe the bytes copied leave that
    case out. *)
Definition memcpy (dst : Memory) (dstOff : Z) (src : Memory) (srcOff : Z)
    (n : Z) : Memory :=
  fun x => if (dstOff <=? x) && (x <? dstOff + n)
           then src (srcOff + (x - dstOff)) else dst x.

(** A [const char *] argument given by its bytes; past the last one the
    map reads 0. *)
Definition of_list (l : list byte) : Memory :=
  fun x => if x <? 0 then 0 else nth (Z.to_nat x) l 0.

(** The [n] bytes of [m] from offset [a]. *)
Definition to_list (m : Memory) (a : Z) (n : nat) : list byte :=
  map (fun i => m (a + Z.of_nat i)) (seq 0 n).

(** [strlen] of a string given by its characters: the number of characters
    before the first NUL, the end of the list standing for the NUL. *)
Fixpoint strlen (line : list byte) : Z :=
  match line with
  | [] => 0
  | c :: rest => if c =? 0 then 0 else 1 + strlen rest
  end.

(** ** Mutexes *)

Definition SemaphoreHandle_t := bool.

Definition xSemaphoreCreateMutex : SemaphoreHandle_t := false.

Definition xSemaphoreTake (m : SemaphoreHandle_t) : option SemaphoreHandle_t :=
  if m then None else Some true.

Definition xSemaphoreGive (m : SemaphoreHandle_t) : SemaphoreHandle_t := false.

(** ** The driver's records *)

Record USARTBuffer := mkUSARTBuffer {
  base : Z;
  length : Z;
  head : Z;
  tail : Z;
  fillLevel : Z;
  highWater : Z;
  mutex : SemaphoreHandle_t
}.

(** The two interrupt-enable bits of the peripheral that the buffer code
    switches with [USART_ITConfig]. *)
Record USART_TypeDef := mkPeripheral {
  IT_TXE : bool;
  IT_RXNE : bool
}.

Record USART := mkUSART {
  peripheral : USART_TypeDef;
  enabled : bool;
  txBuffer : USARTBuffer;
  rxBuffer : USARTBuffer
}.

Definition set_mutex (b : USARTBuffer) (m : SemaphoreHandle_t) : USARTBuffer :=
  mkUSARTBuffer (base b) (length b) (head b) (tail b) (fillLevel b)
                (highWater b) m.

Definition set_txBuffer (u : USART) (b : USARTBuffer) : USART :=
  mkUSART (peripheral u) (enabled u) b (rxBuffer u).

Definition set_rxBuffer (u : USART) (b : USARTBuffer) : USART :=
  mkUSART (peripheral u) (enabled u) (txBuffer u) b.

Definition USART_ITConfig_TXE (p : USART_TypeDef) (on : bool) : USART_TypeDef :=
  mkPeripheral on (IT_RXNE p).

(** ** Buffer functions *)

(** [bufferInit]: [length] has been set by the caller ([initUsart]);
    [allocated] is [masterBufferAllocatedBytes].  Returns the buffer and the
    new value of the cursor. *)
Definition bufferInit (allocated : Z) (buf : USARTBuffer) : USARTBuffer * Z :=
  (mkUSARTBuffer allocated (length buf) allocated allocated 0 0
                 xSemaphoreCreateMutex,
   u16 (allocated + length buf)).

(** [bufferPeek].  The result is a [char]; the error value [0xFF] is 255. *)
Definition bufferPeek (mem : Memory) (buf : USARTBuffer) (depth : Z)
    : byte * USARTBuffer :=
  match xSemaphoreTake (mutex buf) with
  | Some m =>
      if fillLevel buf >? depth then
        (255, set_mutex buf (xSemaphoreGive m))
      else
        let bytesAfterHeadBeforeEnd := u16 (base buf + length buf - head buf) in
        let retVal :=
          if bytesAfterHeadBeforeEnd >=? depth
          then mem (base buf + head buf + depth)
          else mem (base buf + depth - bytesAfterHeadBeforeEnd) in
        (retVal, set_mutex buf (xSemaphoreGive m))
  | None => (255, buf)
  end.

(** [bufferPush].  [None]: the mutex could not be taken and the function
    never returns ([while(true);]). *)
Definition bufferPush (mem : Memory) (buf : USARTBuffer) (data : byte)
    : option (Memory * USARTBuffer) :=
  match xSemaphoreTake (mutex buf) with
  | Some m =>
      let mem' := store mem (tail buf) data in
      let tail' := if base buf + length buf =? tail buf + 1
                   then base buf else u16 (tail buf + 1) in
      let fillLevel' := if negb (fillLevel buf =? length buf)
                        then u16 (fillLevel buf + 1) else fillLevel buf in
      let highWater' := if fillLevel' >? highWater buf
                        then fillLevel' else highWater buf in
      Some (mem', mkUSARTBuffer (base buf) (length buf) (head buf) tail'
                                fillLevel' highWater' (xSemaphoreGive m))
  | None => None
  end.

(** [bufferPop]: the success flag, the byte stored through [data] (if any)
    and the buffer. *)
Definition bufferPop (mem : Memory) (buf : USARTBuffer)
    : bool * option byte * USARTBuffer :=
  match xSemaphoreTake (mutex buf) with
  | Some m =>
      if negb (fillLevel buf =? 0) then
        let data := mem (head buf) in
        let head' := if base buf + length buf =? head buf + 1
                     then base buf else u16 (head buf + 1) in
        (true, Some data,
         mkUSARTBuffer (base buf) (length buf) head' (tail buf)
                       (u16 (fillLevel buf - 1)) (highWater buf)
                       (xSemaphoreGive m))
      else (false, None, set_mutex buf (xSemaphoreGive m))
  | None => (false, None, buf)
  end.

(** ** Implementation of the driver interface *)

(** [writeBytes]: the number of bytes accepted, [masterBuffer] and the
    channel. *)
Definition writeBytes (mem : Memory) (usart : USART) (bytes : list byte)
    (numBytes : Z) : Z * Memory * USART :=
  let tx := txBuffer usart in
  if numBytes >? length tx then (0, mem, usart)
  else
    match xSemaphoreTake (mutex tx) with
    | Some m =>
        let spaceAfterTail := u16 (base tx + length tx - tail tx) in
        let '(mem', tail') :=
          if spaceAfterTail >=? numBytes then
            (memcpy mem (tail tx) (of_list bytes) 0 numBytes,
             if numBytes =? spaceAfterTail then base tx
             else u16 (tail tx + numBytes))
          else
            let overflowBytes := u16 (numBytes - spaceAfterTail) in
            (memcpy (memcpy mem (tail tx) (of_list bytes) 0 spaceAfterTail)
                    (base tx) (of_list bytes) spaceAfterTail overflowBytes,
             u16 (base tx + overflowBytes)) in
        let fillLevel' :=
          if fillLevel tx + numBytes <=? length tx
          then u16 (fillLevel tx + numBytes) else length tx in
        let highWater' :=
          if highWater tx <? fillLevel' then fillLevel' else highWater tx in
        (numBytes, mem',
         mkUSART (USART_ITConfig_TXE (peripheral usart) true) (enabled usart)
                 (mkUSARTBuffer (base tx) (length tx) (head tx) tail'
                                fillLevel' highWater' (xSemaphoreGive m))
                 (rxBuffer usart))
    | None => (0, mem, usart)
    end.

(** [writeLine].  [length] is a [size_t]; [length - 1] is converted to the
    [uint16_t] parameter of [writeBytes] and [length] to the [uint16_t]
    result.  [None]: [bufferPush] did not return. *)
Definition writeLine (mem : Memory) (usart : USART) (line : list byte)
    : option (Z * Memory * USART) :=
  let len := strlen line in
  if len >? length (txBuffer usart) then Some (0, mem, usart)
  else
    let '(accepted, mem1, usart1) :=
      writeBytes mem usart line (u16 (len - 1)) in
    if negb (accepted =? 0) then
      match bufferPush mem1 (txBuffer usart1) LF with
      | Some (mem2, tx2) => Some (u16 len, mem2, set_txBuffer usart1 tx2)
      | None => None
      end
    else Some (0, mem1, usart1).

(** [rxBytesAvailable]: takes the mutex of [rxBuffer], gives the mutex of
    [txBuffer]. *)
Definition rxBytesAvailable (usart : USART) : Z * USART :=
  match xSemaphoreTake (mutex (rxBuffer usart)) with
  | Some m =>
      (fillLevel (rxBuffer usart),
       mkUSART (peripheral usart) (enabled usart)
               (set_mutex (txBuffer usart)
                          (xSemaphoreGive (mutex (txBuffer usart))))
               (set_mutex (rxBuffer usart) m))
  | None => (0, usart)
  end.

(** [readBytes]: the number of bytes read, the caller's [buf] and the
    channel. *)
Definition readBytes (mem : Memory) (usart : USART) (buf : Memory)
    (numBytes : Z) : Z * Memory * USART :=
  let rx := rxBuffer usart in
  match xSemaphoreTake (mutex rx) with
  | Some m =>
      let bytesToRead :=
        if fillLevel rx >=? numBytes then numBytes else fillLevel rx in
      let bufferAfterHead := u16 (base rx + length rx - head rx) in
      let '(buf', head') :=
        if bytesToRead <=? bufferAfterHead then
          (memcpy buf 0 mem (head rx) bytesToRead,
           if bytesToRead =? bufferAfterHead then base rx
           else u16 (head rx + bytesToRead))
        else
          let bytesBeforeBufferEnd := u16 (base rx + length rx - head rx) in
          let secondBlockLength := u16 (bytesToRead - bytesBeforeBufferEnd) in
          (memcpy (memcpy buf 0 mem (head rx) bytesBeforeBufferEnd)
                  bytesBeforeBufferEnd mem (base rx) secondBlockLength,
           u16 (base rx + secondBlockLength)) in
      (bytesToRead, buf',
       set_rxBuffer usart
         (mkUSARTBuffer (base rx) (length rx) head' (tail rx)
                        (u16 (fillLevel rx - bytesToRead)) (highWater rx)
                        (xSemaphoreGive m)))
  | None => (0, buf, usart)
  end.

(** The scanning loop of [readLine] and [readLineTruncate], with [n] the
    number of iterations left: [foundLineEnding], [i] and [bufPtr] at the
    exit of the loop. *)
Fixpoint scanLine (mem : Memory) (rx : USARTBuffer) (n : nat) (i bufPtr : Z)
    : bool * Z * Z :=
  match n with
  | O => (false, i, bufPtr)
  | S n' =>
      if LF =? mem bufPtr then (true, i, bufPtr)
      else scanLine mem rx n' (u16 (i + 1))
             (if bufPtr =? base rx + length rx then base rx
              else u16 (bufPtr + 1))
  end.

(** The copy into the caller's buffer that ends [readLine] and
    [readLineTruncate] once a line ending is found, for the values of [i]
    and [bufPtr] at that point. *)
Definition copyLine (mem : Memory) (rx : USARTBuffer) (buf : Memory)
    (i bufPtr : Z) : Z * Memory :=
  let buf1 :=
    if bufPtr >? head rx then memcpy buf 0 mem (head rx) (i - 1)
    else if bufPtr <? head rx then
      let bytesToReadAfterHead := u16 (base rx + length rx - head rx) in
      memcpy (memcpy buf 0 mem (head rx) bytesToReadAfterHead)
             bytesToReadAfterHead mem (base rx)
             ((i - 1) - bytesToReadAfterHead)
    else buf in
  (u16 (i - 1), store buf1 (i - 1) 0).

(** [readLine].  With an empty buffer the function returns without giving
    the mutex back. *)
Definition readLine (mem : Memory) (usart : USART) (buf : Memory)
    : Z * Memory * USART :=
  let rx := rxBuffer usart in
  match xSemaphoreTake (mutex rx) with
  | Some m =>
      if negb (fillLevel rx =? 0) then
        let '(foundLineEnding, i, bufPtr) :=
          scanLine mem rx (Z.to_nat (fillLevel rx)) 0 (head rx) in
        if foundLineEnding then
          let '(r, buf') := copyLine mem rx buf i bufPtr in
          (r, buf', set_rxBuffer usart (set_mutex rx (xSemaphoreGive m)))
        else (0, buf, set_rxBuffer usart (set_mutex rx (xSemaphoreGive m)))
      else (0, buf, set_rxBuffer usart (set_mutex rx m))
  | None => (0, buf, usart)
  end.

(** [readLineTruncate]. *)
Definition readLineTruncate (mem : Memory) (usart : USART) (buf : Memory)
    (maxLen : Z) : Z * Memory * USART :=
  let rx := rxBuffer usart in
  match xSemaphoreTake (mutex rx) with
  | Some m =>
      if negb (fillLevel rx =? 0) then
        let '(foundLineEnding, i0, bufPtr) :=
          scanLine mem rx (Z.to_nat (fillLevel rx)) 0 (head rx) in
        if foundLineEnding then
          let i := if (i0 >? 0) && (i0 - 1 >? maxLen)
                   then u16 (maxLen + 1) else i0 in
          let '(r, buf') := copyLine mem rx buf i bufPtr in
          (r, buf', set_rxBuffer usart (set_mutex rx (xSemaphoreGive m)))
        else (0, buf, set_rxBuffer usart (set_mutex rx (xSemaphoreGive m)))
      else (0, buf, set_rxBuffer usart (set_mutex rx m))
  | None => (0, buf, usart)
  end.

(** ** Redirection functions

    [usart1_writeLine] ... [usart6_readLineTruncate] differ only in the
    entry of [usartList] they pass on; each is the function below at that
    entry. *)

Definition usartN_writeBytes (mem : Memory) (usart : USART)
    (bytes : list byte) (numBytes : Z) : Z * Memory * USART :=
  if enabled usart then writeBytes mem usart bytes numBytes
  else (0, mem, usart).


Definition usartN_rxBytesAvailable (usart : USART) : Z * USART :=
  if enabled usart then rxBytesAvailable usart else (0, usart).

Definition usartN_readLine (mem : Memory) (usart : USART) (buf : Memory)
    : Z * Memory * USART :=
  if enabled usart then readLine mem usart buf else (0, buf, usart).

Definition usartN_readLineTruncate (mem : Memory) (usart : USART)
    (buf : Memory) (maxLen : Z) : Z * Memory * USART :=
  if enabled usart then readLineTruncate mem usart buf maxLen
  else (0, buf, usart).

(** ** Initialisation *)

Section Init.

(** The length of [masterBuffer].  The macro is set by the application in
    [FS_STM32F4xxUSART_Conf.h]. *)
Variable FS_STM32F4XXUSART_MASTER_BUFFER_LENGTH_BYTES : Z.

(** [initUsart], as far as the entry of [usartList] and the allocation
    cursor go; the set-up of the pins, clocks and interrupt controller is
    left out.  The sizes are converted to the [uint16_t] field [length].
    Returns the success flag, the entry and the cursor. *)
Definition initUsart (allocated : Z) (usart : USART)
    (periph : USART_TypeDef) (txBufferSizeBytes rxBufferSizeBytes : Z)
    : bool * USART * Z :=
  if rxBufferSizeBytes + txBufferSizeBytes
       >? FS_STM32F4XXUSART_MASTER_BUFFER_LENGTH_BYTES - allocated
  then (false, usart, allocated)
  else
    let tx0 := mkUSARTBuffer (base (txBuffer usart)) (u16 txBufferSizeBytes)
                 (head (txBuffer usart)) (tail (txBuffer usart))
                 (fillLevel (txBuffer usart)) (highWater (txBuffer usart))
                 (mutex (txBuffer usart)) in
    let rx0 := mkUSARTBuffer (base (rxBuffer usart)) (u16 rxBufferSizeBytes)
                 (head (rxBuffer usart)) (tail (rxBuffer usart))
                 (fillLevel (rxBuffer usart)) (highWater (rxBuffer usart))
                 (mutex (rxBuffer usart)) in
    let '(tx, allocated1) := bufferInit allocated tx0 in
    let '(rx, allocated2) := bufferInit allocated1 rx0 in
    (true, mkUSART (mkPeripheral (IT_TXE periph) true) true tx rx, allocated2).

End Init.

(** ** Drivers for sequences of calls *)

(** [bufferPush] of the bytes of a list, first to last. *)
Fixpoint pushAll (mem : Memory) (buf : USARTBuffer) (l : list byte)
    : option (Memory * USARTBuffer) :=
  match l with
  | [] => Some (mem, buf)
  | d :: rest =>
      match bufferPush mem buf d with
      | Some (mem', buf') => pushAll mem' buf' rest
      | None => None
      end
  end.

(** [n] calls of [bufferPop]: the bytes obtained, in the order of the
    calls, and the buffer. *)
Fixpoint popN (mem : Memory) (buf : USARTBuffer) (n : nat)
    : list byte * USARTBuffer :=
  match n with
  | O => ([], buf)
  | S n' =>
      match bufferPop mem buf with
      | (_, Some d, buf') =>
          let '(ds, buf'') := popN mem buf' n' in (d :: ds, buf'')
      | (_, None, buf') => popN mem buf' n'
      end
  end.

(** The zero-initialised statics: [masterBuffer] and an entry of
    [usartList]. *)
Definition masterBuffer0 : Memory := fun _ => 0.

Definition usart0 : USART :=
  mkUSART (mkPeripheral false false) false
          (mkUSARTBuffer 0 0 0 0 0 0 false) (mkUSARTBuffer 0 0 0 0 0 0 false).

(** A channel with a transmit buffer of [txLen] and a receive buffer of
    [rxLen] bytes allocated from the start of a master buffer of 1024
    bytes. *)
Definition channel (txLen rxLen : Z) : USART :=
  snd (fst (initUsart 1024 0 usart0 (mkPeripheral false false) txLen rxLen)).

(** The channel after the bytes [l] have been received into its receive
    buffer (by [bufferPush], as [mainLoop] does). *)
Definition received (mem : Memory) (usart : USART) (l : list byte)
    : option (Memory * USART) :=
  match pushAll mem (rxBuffer usart) l with
  | Some (mem', rx') => Some (mem', set_rxBuffer usart rx')
  | None => None
  end.

(** A caller's buffer filled with ['.'], so that what a call stores in it
    shows. *)
Definition scratch : Memory := fun _ => 46.

(** A channel whose transmit buffer of 8 bytes is empty with [head] and
    [tail] 6 bytes into its region: 6 bytes have been written and popped
    (length - 2 bytes, as in the test of the specification). *)
Definition wrap_demo : Memory * USART :=
  let '(_, mem, usart) :=
    writeBytes masterBuffer0 (channel 8 8) [1; 2; 3; 4; 5; 6] 6 in
  (mem, set_txBuffer usart (snd (popN mem (txBuffer usart) 6))).


(** ** The logical view of a ring buffer *)

(** The offset in [masterBuffer] of the byte [j] positions ahead of [head],
    wrapping at [base + length]. *)
Definition slot (b : USARTBuffer) (j : Z) : Z :=
  if head b + j <? base b + length b then head b + j
  else head b + j - length b.

(** The queued bytes, oldest first: the [fillLevel] bytes from [head]. *)
Definition contents (mem : Memory) (b : USARTBuffer) : list byte :=
  map (fun j => mem (slot b (Z.of_nat j))) (seq 0 (Z.to_nat (fillLevel b))).

(** The region of the buffer is not empty and lies in the range of the
    [uint16_t] offsets, and its length is a [uint16_t]. *)
Definition region_ok (b : USARTBuffer) : Prop :=
  1 <= length b <= 65535 /\ 0 <= base b /\ base b + length b <= 65536.

(** The invariants of section 3 of the specification. *)
Definition ring_ok (b : USARTBuffer) : Prop :=
  0 <= fillLevel b <= length b /\
  base b <= head b < base b + length b /\
  base b <= tail b < base b + length b.

(** [tail] is [fillLevel] positions ahead of [head]: no byte has been
    pushed into the buffer while it was full. *)
Definition queue_wf (b : USARTBuffer) : Prop :=
  region_ok b /\ ring_ok b /\ tail b = slot b (fillLevel b) /\
  mutex b = false.

Definition clamp (lo hi x : Z) : Z := Z.max lo (Z.min hi x).

(** What the operations keep true of a buffer whose region is in order. *)
Definition buf_ok (b : USARTBuffer) : Prop :=
  region_ok b /\ ring_ok b /\ mutex b = false.

(** What the operations keep true of the counters of a buffer, wherever its
    region lies. *)
Definition level_ok (b : USARTBuffer) : Prop :=
  0 <= fillLevel b <= length b /\ length b <= 65535 /\
  fillLevel b <= highWater b /\ mutex b = false.

(** The counters of [b'] after an operation on [b] that put [put] bytes in
    and took [taken] bytes out. *)
Definition level_step (b b' : USARTBuffer) (put taken : Z) : Prop :=
  length b' = length b /\
  level_ok b' /\
  fillLevel b' = clamp 0 (length b) (fillLevel b + put - taken) /\
  highWater b' = Z.max (highWater b) (fillLevel b').

(** The index in the source bytes of the byte that a write of [n] bytes
    into a queue of [f] bytes and length [L] leaves at position [j] of the
    queue, if it writes there. *)
Definition written (f n L j : Z) : option Z :=
  if (f <=? j) && (j <? f + n) then Some (j - f)
  else if j <? f + n - L then Some (j + L - f)
  else None.

(** ** Sequences of operations on a channel *)

Inductive Op : Type :=
| OpPushTx (data : byte)
| OpPushRx (data : byte)
| OpPopTx
| OpPopRx
| OpWriteBytes (bytes : list byte) (numBytes : Z)
| OpReadBytes (numBytes : Z).

Record State := mkState {
  st_mem : Memory;
  st_usart : USART
}.

(** The bytes an operation put into and took out of each buffer. *)
Record Transfer := mkTransfer {
  txIn : Z;
  txOut : Z;
  rxIn : Z;
  rxOut : Z
}.

Definition add_transfer (a b : Transfer) : Transfer :=
  mkTransfer (txIn a + txIn b) (txOut a + txOut b)
             (rxIn a + rxIn b) (rxOut a + rxOut b).

(** One operation.  The [numBytes] arguments are converted to the
    [uint16_t] parameter.  [None]: the call does not return. *)
Definition step (op : Op) (s : State) : option (State * Transfer) :=
  let mem := st_mem s in
  let u := st_usart s in
  match op with
  | OpPushTx d =>
      match bufferPush mem (txBuffer u) d with
      | Some (mem', b) =>
          Some (mkState mem' (set_txBuffer u b), mkTransfer 1 0 0 0)
      | None => None
      end
  | OpPushRx d =>
      match bufferPush mem (rxBuffer u) d with
      | Some (mem', b) =>
          Some (mkState mem' (set_rxBuffer u b), mkTransfer 0 0 1 0)
      | None => None
      end
  | OpPopTx =>
      let '(success, _, b) := bufferPop mem (txBuffer u) in
      Some (mkState mem (set_txBuffer u b),
            mkTransfer 0 (if success then 1 else 0) 0 0)
  | OpPopRx =>
      let '(success, _, b) := bufferPop mem (rxBuffer u) in
      Some (mkState mem (set_rxBuffer u b),
            mkTransfer 0 0 0 (if success then 1 else 0))
  | OpWriteBytes bytes numBytes =>
      let '(r, mem', u') := writeBytes mem u bytes (u16 numBytes) in
      Some (mkState mem' u', mkTransfer r 0 0 0)
  | OpReadBytes numBytes =>
      let '(r, _, u') := readBytes mem u scratch (u16 numBytes) in
      Some (mkState mem u', mkTransfer 0 0 0 r)
  end.

(** The state after a sequence of operations. *)
Fixpoint run (ops : list Op) (s : State) : option State :=
  match ops with
  | [] => Some s
  | op :: rest =>
      match step op s with
      | Some (s', _) => run rest s'
      | None => None
      end
  end.

(** The states observed along a sequence: the first one and the one after
    each operation. *)
Fixpoint observed (ops : list Op) (s : State) : list State :=
  s :: match ops with
       | [] => []
       | op :: rest =>
           match step op s with
           | Some (s', _) => observed rest s'
           | None => []
           end
       end.

(** The bytes put in and taken out over a sequence. *)
Fixpoint transferred (ops : list Op) (s : State) : Transfer :=
  match ops with
  | [] => mkTransfer 0 0 0 0
  | op :: rest =>
      match step op s with
      | Some (s', t) => add_transfer t (transferred rest s')
      | None => mkTransfer 0 0 0 0
      end
  end.

(** The largest fill level of the buffer [sel] among the states [l]. *)
Definition max_fill (sel : USART -> USARTBuffer) (l : list State) : Z :=
  fold_right (fun s m => Z.max (fillLevel (sel (st_usart s))) m) 0 l.

(** The invariants of both buffers of the channel of a state. *)
Definition chan_ok (s : State) : Prop :=
  buf_ok (txBuffer (st_usart s)) /\ buf_ok (rxBuffer (st_usart s)).

Definition chan_level (s : State) : Prop :=
  level_ok (txBuffer (st_usart s)) /\ level_ok (rxBuffer (st_usart s)).

(** The regions of the buffers of two channels are the same. *)
Definition same_region (u u' : USART) : Prop :=
  base (txBuffer u') = base (txBuffer u) /\
  length (txBuffer u') = length (txBuffer u) /\
  base (rxBuffer u') = base (rxBuffer u) /\
  length (rxBuffer u') = length (rxBuffer u).

(** ** The remaining redirection function *)


(** ** The servicing of a channel by [mainLoop] *)

(** What the peripheral shows when [mainLoop] looks at it: the two status
    flags read by [USART_GetFlagStatus] and the value that
    [USART_ReceiveData] returns. *)
Record USART_Flags := mkFlags {
  FLAG_TXE : bool;
  FLAG_RXNE : bool;
  DR : Z
}.

Definition USART_ITConfig_RXNE (p : USART_TypeDef) (on : bool) : USART_TypeDef :=
  mkPeripheral (IT_TXE p) on.

Definition set_peripheral (u : USART) (p : USART_TypeDef) : USART :=
  mkUSART p (enabled u) (txBuffer u) (rxBuffer u).

(** The body of the [for] loop of [mainLoop] for one entry of [usartList]:
    [masterBuffer], the entry and the values handed to [USART_SendData]
    (at most one).  [None]: [bufferPush] did not return. *)
Definition serviceUsart (mem : Memory) (usart : USART) (hw : USART_Flags)
    : option (Memory * USART * list Z) :=
  if enabled usart then
    let '(usart1, sent) :=
      if FLAG_TXE hw then
        match bufferPop mem (txBuffer usart) with
        | (true, Some data, tx) =>
            (mkUSART (USART_ITConfig_TXE (peripheral usart) true)
                     (enabled usart) tx (rxBuffer usart),
             [Z.land data 255])
        | (_, _, tx) => (set_txBuffer usart tx, [])
        end
      else
        (set_peripheral usart (USART_ITConfig_TXE (peripheral usart) false),
         []) in
    if FLAG_RXNE hw then
      match bufferPush mem (rxBuffer usart1) (DR hw mod 256) with
      | Some (mem', rx) =>
          Some (mem',
                mkUSART (USART_ITConfig_RXNE (peripheral usart1) true)
                        (enabled usart1) (txBuffer usart1) rx,
                sent)
      | None => None
      end
    else Some (mem, usart1, sent)
  else Some (mem, usart, []).

(** The entry serviced once for each element of [hws], in order: what the
    passes of [mainLoop] do to one channel.  The values sent are
    collected in the order of the passes. *)
Fixpoint services (mem : Memory) (usart : USART) (hws : list USART_Flags)
    : option (Memory * USART * list Z) :=
  match hws with
  | [] => Some (mem, usart, [])
  | hw :: rest =>
      match serviceUsart mem usart hw with
      | Some (mem1, usart1, sent1) =>
          match services mem1 usart1 rest with
          | Some (mem2, usart2, sent2) => Some (mem2, usart2, sent1 ++ sent2)
          | None => None
          end
      | None => None
      end
  end.

(** A pass that finds the transmit register empty and nothing received, and
    a pass that finds the byte [d] received and the transmitter busy. *)
Definition tx_ready : USART_Flags := mkFlags true false 0.

Definition rx_ready (d : Z) : USART_Flags := mkFlags false true d.

(** ** Initialisation of the driver *)

(** The fields of [FS_STM32F4xxUSART_PeriphInitStruct_t] that [initUsart]
    uses for the entry of [usartList]. *)
Record PeriphInitStruct := mkPeriphInit {
  initialise : bool;
  init_peripheral : USART_TypeDef;
  txBufferSizeBytes : Z;
  rxBufferSizeBytes : Z
}.

(** [FS_STM32F4xxUSART_Init], as far as [usartList] and the allocation
    cursor go: its six blocks, one per entry and init struct, are the steps
    of the recursion; the first [initUsart] that fails ends the function.
    Returns [success], [usartList] and the cursor. *)
Fixpoint FS_STM32F4xxUSART_Init (M allocated : Z) (usartList : list USART)
    (inits : list PeriphInitStruct) : bool * list USART * Z :=
  match usartList, inits with
  | usart :: us, i :: rest =>
      if initialise i then
        let '(ok, usart', allocated') :=
          initUsart M allocated usart (init_peripheral i)
                    (txBufferSizeBytes i) (rxBufferSizeBytes i) in
        if ok then
          let '(success, us', allocated'') :=
            FS_STM32F4xxUSART_Init M allocated' us rest in
          (success, usart' :: us', allocated'')
        else (false, usart :: us, allocated)
      else
        let '(success, us', allocated') :=
          FS_STM32F4xxUSART_Init M allocated us rest in
        (success, usart :: us', allocated')
  | _, _ => (true, usartList, allocated)
  end.

(** The regions ([base], [length]) of the buffers of the entries that were
    to be initialised, in the order of [usartList], transmit before
    receive. *)
Fixpoint initialised_regions (usartList : list USART)
    (inits : list PeriphInitStruct) : list (Z * Z) :=
  match usartList, inits with
  | usart :: us, i :: rest =>
      (if initialise i
       then [(base (txBuffer usart), length (txBuffer usart));
             (base (rxBuffer usart), length (rxBuffer usart))]
       else [])
      ++ initialised_regions us rest
  | _, _ => []
  end.

(** The regions follow one another without gap or overlap from offset [a]
    to offset [a']. *)
Fixpoint stacked (a : Z) (regions : list (Z * Z)) (a' : Z) : Prop :=
  match regions with
  | [] => a = a'
  | (b, l) :: rest => b = a /\ 0 <= l /\ stacked (a + l) rest a'
  end.

(** The offset [a] lies in the region of the buffer. *)
Definition in_region (b : USARTBuffer) (a : Z) : Prop :=
  base b <= a < base b + length b.

(** The channel with 8-byte buffers after the bytes [l] have been
    received, on a zeroed [masterBuffer]. *)
Definition demo_rx (l : list byte) : Memory * USART :=
  match received masterBuffer0 (channel 8 8) l with
  | Some p => p
  | None => (masterBuffer0, channel 8 8)
  end.


(** A buffer of length 0 at offset 4 and a buffer of 4 bytes at the same
    offset that holds the bytes 1, 2, 3: what [initUsart] sets up for a
    channel without receive buffer followed by another channel. *)
Definition zero_length_demo : Memory * USARTBuffer * USARTBuffer :=
  match pushAll masterBuffer0 (mkUSARTBuffer 4 4 4 4 0 0 false) [1; 2; 3] with
  | Some (mem, c) => (mem, mkUSARTBuffer 4 0 4 4 0 0 false, c)
  | None => (masterBuffer0, mkUSARTBuffer 4 0 4 4 0 0 false,
             mkUSARTBuffer 4 4 4 4 0 0 false)
  end.

(** * Properties *)

(** Case analysis on the comparisons of a goal, closing the cases that
    contradict the hypotheses. *)
Ltac zcases :=
  repeat (match goal with
          | |- context [Z.gtb ?a ?b] => rewrite (Z.gtb_ltb a b)
          | |- context [Z.geb ?a ?b] => rewrite (Z.geb_leb a b)
          | |- context [Z.ltb ?a ?b] => destruct (Z.ltb_spec a b)
          | |- context [Z.leb ?a ?b] => destruct (Z.leb_spec a b)
          | |- context [Z.eqb ?a ?b] => destruct (Z.eqb_spec a b)
          end; cbn [andb orb negb]; try lia).

(** Closing a goal about closed terms by evaluation. *)
Ltac by_eval :=
  vm_compute;
  repeat split; try reflexivity; try discriminate.

Ltac open_buf_ok :=
  unfold buf_ok, region_ok, ring_ok, xSemaphoreGive;
  cbn [base length head tail fillLevel highWater mutex set_mutex].

(** ** Arithmetic of the embedding *)

Lemma u16_small (x : Z) : 0 <= x < 65536 -> u16 x = x.
Proof. intros H. unfold u16. apply Z.mod_small. exact H. Qed.

Lemma u16_range (x : Z) : 0 <= u16 x < 65536.
Proof. unfold u16. apply Z.mod_pos_bound. lia. Qed.

Lemma take_free (m : SemaphoreHandle_t) :
  m = false -> xSemaphoreTake m = Some true.
Proof. intros ->. reflexivity. Qed.

Lemma take_held (m : SemaphoreHandle_t) :
  m = true -> xSemaphoreTake m = None.
Proof. intros ->. reflexivity. Qed.

(** ** [readLine] and [readLineTruncate] *)

(** Neither function moves [head] or [tail] or changes [fillLevel]: nothing
    is ever taken out of the receive buffer. *)
Lemma readLine_keeps_queue (mem : Memory) (usart : USART) (buf : Memory) :
  let rx' := rxBuffer (snd (readLine mem usart buf)) in
  head rx' = head (rxBuffer usart) /\
  tail rx' = tail (rxBuffer usart) /\
  fillLevel rx' = fillLevel (rxBuffer usart).
Proof.
  unfold readLine.
  destruct (xSemaphoreTake (mutex (rxBuffer usart))); [|simpl; auto].
  destruct (negb (fillLevel (rxBuffer usart) =? 0)); [|simpl; auto].
  destruct (scanLine _ _ _ _ _) as [[found i] bufPtr].
  destruct found; [|simpl; auto].
  destruct (copyLine _ _ _ _ _). simpl. auto.
Qed.

Lemma readLineTruncate_keeps_queue (mem : Memory) (usart : USART)
    (buf : Memory) (maxLen : Z) :
  let rx' := rxBuffer (snd (readLineTruncate mem usart buf maxLen)) in
  head rx' = head (rxBuffer usart) /\
  tail rx' = tail (rxBuffer usart) /\
  fillLevel rx' = fillLevel (rxBuffer usart).
Proof.
  unfold readLineTruncate.
  destruct (xSemaphoreTake (mutex (rxBuffer usart))); [|simpl; auto].
  destruct (negb (fillLevel (rxBuffer usart) =? 0)); [|simpl; auto].
  destruct (scanLine _ _ _ _ _) as [[found i] bufPtr].
  destruct found; [|simpl; auto].
  destruct (copyLine _ _ _ _ _). simpl. auto.
Qed.

(** A scan that meets no line ending reports none. *)
Lemma scanLine_none (mem : Memory) (rx : USARTBuffer) (n : nat) :
  forall i bufPtr,
    (forall a, mem a <> LF) ->
    fst (fst (scanLine mem rx n i bufPtr)) = false.
Proof.
  induction n as [|n IH]; intros i bufPtr Hno; cbn [scanLine];
    [reflexivity|].
  destruct (LF =? mem bufPtr) eqn:E.
  - apply Z.eqb_eq in E. exfalso. apply (Hno bufPtr). symmetry. exact E.
  - apply IH. exact Hno.
Qed.

(** Without a line ending in [masterBuffer], [readLine] returns 0 and
    leaves the caller's buffer as it was. *)
Lemma readLine_no_line (mem : Memory) (usart : USART) (buf : Memory) :
  (forall a, mem a <> LF) ->
  fst (fst (readLine mem usart buf)) = 0 /\
  snd (fst (readLine mem usart buf)) = buf.
Proof.
  intros Hno. unfold readLine.
  destruct (xSemaphoreTake (mutex (rxBuffer usart))); [|simpl; auto].
  destruct (negb (fillLevel (rxBuffer usart) =? 0)); [|simpl; auto].
  pose proof (scanLine_none mem (rxBuffer usart)
                (Z.to_nat (fillLevel (rxBuffer usart))) 0
                (head (rxBuffer usart)) Hno) as Hs.
  destruct (scanLine _ _ _ _ _) as [[found i] bufPtr].
  simpl in Hs. subst found. simpl. auto.
Qed.

(** C1. On a receive buffer that holds "AB\nCD" (received into a freshly
    initialised channel, mutex free), [readLine] returns 1, not 2, stores
    "A" and a NUL in the caller's buffer, not "AB", and leaves [head],
    [tail] and [fillLevel] (5) as they were: nothing is consumed, and a
    second call returns the same line again. *)
Theorem readLine_AB_LF_CD :
  match received masterBuffer0 (channel 8 8) [65; 66; 10; 67; 68] with
  | Some (mem, usart) =>
      let '(r, buf, usart') := usartN_readLine mem usart scratch in
      r = 1 /\
      to_list buf 0 4 = [65; 0; 46; 46] /\
      contents mem (rxBuffer usart) = [65; 66; 10; 67; 68] /\
      contents mem (rxBuffer usart') = [65; 66; 10; 67; 68] /\
      head (rxBuffer usart') = head (rxBuffer usart) /\
      tail (rxBuffer usart') = tail (rxBuffer usart) /\
      fillLevel (rxBuffer usart') = 5 /\
      mutex (rxBuffer usart') = false /\
      fst (fst (usartN_readLine mem usart' scratch)) = 1
  | None => False
  end.
Proof. vm_compute. repeat split; reflexivity. Qed.

(** C2. On a receive buffer that holds "ABCDE\n", [readLineTruncate] with
    [maxLen = 1] returns 1 and stores "A" and a NUL, but takes nothing out
    of the buffer: [fillLevel] stays 6, [head] does not move, and the next
    call returns the same truncated line. *)
Theorem readLineTruncate_ABCDE_LF :
  match received masterBuffer0 (channel 8 8) [65; 66; 67; 68; 69; 10] with
  | Some (mem, usart) =>
      let '(r, buf, usart') := usartN_readLineTruncate mem usart scratch 1 in
      r = 1 /\
      to_list buf 0 4 = [65; 0; 46; 46] /\
      fillLevel (rxBuffer usart) = 6 /\
      fillLevel (rxBuffer usart') = 6 /\
      head (rxBuffer usart') = head (rxBuffer usart) /\
      contents mem (rxBuffer usart') = [65; 66; 67; 68; 69; 10] /\
      (let '(r2, buf2, _) := usartN_readLineTruncate mem usart' scratch 1 in
       r2 = 1 /\ to_list buf2 0 4 = [65; 0; 46; 46])
  | None => False
  end.
Proof. vm_compute. repeat split; reflexivity. Qed.

(** The scan of [readLine] wraps one byte late: with [head] at offset 6 of
    a buffer that occupies offsets 4 to 7, it reads offset 8, which belongs
    to the next buffer.  A line ending stored there is taken for the end of
    a line of the receive buffer "XYZ", which holds none. *)
Example readLine_scans_past_end :
  let rx := mkUSARTBuffer 4 4 6 5 3 4 false in
  let usart := mkUSART (mkPeripheral false true) true
                       (mkUSARTBuffer 0 4 0 0 0 0 false) rx in
  let mem := store (store (store (store masterBuffer0 6 88) 7 89) 4 90) 8 LF in
  contents mem rx = [88; 89; 90] /\
  fst (fst (readLine mem usart scratch)) = 1.
Proof. vm_compute. split; reflexivity. Qed.

(** ** [bufferPush] and [bufferPop] *)

(** A push into a full buffer keeps [fillLevel] and leaves [head] where it
    was, although the byte at [head] may just have been overwritten. *)
Lemma bufferPush_full (mem : Memory) (buf : USARTBuffer) (data : byte) :
  mutex buf = false ->
  fillLevel buf = length buf ->
  exists mem' buf',
    bufferPush mem buf data = Some (mem', buf') /\
    fillLevel buf' = length buf /\
    head buf' = head buf /\
    mem' (tail buf) = data.
Proof.
  intros Hm Hfull. unfold bufferPush. rewrite (take_free _ Hm).
  eexists. eexists. split; [reflexivity|]. cbn [fillLevel head].
  rewrite Hfull, Z.eqb_refl. cbn [negb]. unfold store.
  rewrite Z.eqb_refl. auto.
Qed.

(** C3. Pushing the 5 bytes 1, 2, 3, 4, 5 into an empty buffer of length 4
    leaves [fillLevel] at 4, but [head] is not advanced past the overwritten
    byte: the 4 pops that follow return 5, 2, 3, 4 (the newest byte first),
    not 2, 3, 4, 5. *)
Theorem push_full_then_pop :
  match pushAll masterBuffer0 (rxBuffer (channel 4 4)) [1; 2; 3; 4; 5] with
  | Some (mem, buf) =>
      length buf = 4 /\
      fillLevel buf = 4 /\
      head buf = base buf /\
      tail buf = base buf + 1 /\
      fst (popN mem buf 4) = [5; 2; 3; 4] /\
      fst (popN mem buf 4) <> [2; 3; 4; 5]
  | None => False
  end.
Proof. vm_compute. repeat split; try reflexivity. discriminate. Qed.

(** ** [bufferPeek] *)

(** Whatever lies inside the fill range is refused. *)
Lemma bufferPeek_inside (mem : Memory) (buf : USARTBuffer) (depth : Z) :
  depth < fillLevel buf ->
  fst (bufferPeek mem buf depth) = 255.
Proof.
  intros H. unfold bufferPeek.
  destruct (xSemaphoreTake (mutex buf)); [|reflexivity].
  replace (fillLevel buf >? depth) with true; [reflexivity|].
  symmetry. apply Z.gtb_lt. exact H.
Qed.

(** C5. With "AB" in a receive buffer (fill level 2, mutex free),
    [bufferPeek] at depth 0 and at depth 1 returns the error value 255
    instead of 'A' and 'B'; at depth 2, outside the fill range, it returns
    no error but the byte at [base + head + depth], an offset outside the
    buffer. *)
Theorem bufferPeek_AB :
  match pushAll (store masterBuffer0 18 7) (rxBuffer (channel 8 8))
                [65; 66] with
  | Some (mem, buf) =>
      fillLevel buf = 2 /\
      contents mem buf = [65; 66] /\
      fst (bufferPeek mem buf 0) = 255 /\
      fst (bufferPeek mem buf 1) = 255 /\
      fst (bufferPeek mem buf 2) = 7 /\
      base buf + length buf = 16
  | None => False
  end.
Proof. vm_compute. repeat split; reflexivity. Qed.

(** ** [rxBytesAvailable] *)

(** C10. On an enabled channel with 3 bytes received, the mutex of the
    receive buffer free and the mutex of the transmit buffer taken (by
    another task), [rxBytesAvailable] returns 3, leaves the mutex of the
    receive buffer taken and gives the mutex of the transmit buffer. *)
Theorem rxBytesAvailable_mutexes :
  match received masterBuffer0 (channel 8 8) [65; 66; 67] with
  | Some (_, usart0) =>
      let usart := set_txBuffer usart0 (set_mutex (txBuffer usart0) true) in
      let '(r, usart') := usartN_rxBytesAvailable usart in
      enabled usart = true /\
      mutex (rxBuffer usart) = false /\
      mutex (txBuffer usart) = true /\
      r = 3 /\
      mutex (rxBuffer usart') = true /\
      mutex (txBuffer usart') = false
  | None => False
  end.
Proof. vm_compute. repeat split; reflexivity. Qed.

(** ** [writeBytes] *)

(** C4. A request for more bytes than the transmit buffer is long is
    refused as a whole: [writeBytes] returns 0 and [masterBuffer] and the
    channel, hence [head], [tail] and [fillLevel] of its transmit buffer,
    are what they were. *)
Theorem writeBytes_too_long (mem : Memory) (usart : USART)
    (bytes : list byte) (numBytes : Z) :
  numBytes > length (txBuffer usart) ->
  writeBytes mem usart bytes numBytes = (0, mem, usart) /\
  (let '(_, _, usart') := writeBytes mem usart bytes numBytes in
   head (txBuffer usart') = head (txBuffer usart) /\
   tail (txBuffer usart') = tail (txBuffer usart) /\
   fillLevel (txBuffer usart') = fillLevel (txBuffer usart)).
Proof.
  intros H. unfold writeBytes.
  replace (numBytes >? length (txBuffer usart)) with true.
  - auto.
  - symmetry. apply Z.gtb_lt. lia.
Qed.

Lemma writeBytes_too_long_witness :
  9 > length (txBuffer (channel 8 8)) /\
  writeBytes masterBuffer0 (channel 8 8) [1; 2; 3; 4; 5; 6; 7; 8; 9] 9
  = (0, masterBuffer0, channel 8 8).
Proof.
  split.
  - vm_compute. reflexivity.
  - refine (proj1 (writeBytes_too_long masterBuffer0 (channel 8 8)
                     [1; 2; 3; 4; 5; 6; 7; 8; 9] 9 _)).
    vm_compute. reflexivity.
Defined.

(** ** The counters along the operations *)

Lemma level_step_idle (b : USARTBuffer) :
  level_ok b -> level_step b b 0 0.
Proof.
  intros (Hf & HL & Hw & Hm). unfold level_step, level_ok, clamp.
  repeat split; try lia; assumption.
Qed.

Lemma bufferPush_level (mem : Memory) (b : USARTBuffer) (d : byte) :
  level_ok b ->
  exists mem' b',
    bufferPush mem b d = Some (mem', b') /\ level_step b b' 1 0.
Proof.
  intros (Hf & HL & Hw & Hm). unfold bufferPush.
  rewrite (take_free _ Hm). eexists. eexists. split; [reflexivity|].
  unfold level_step, level_ok, clamp, xSemaphoreGive.
  cbn [length fillLevel highWater mutex].
  destruct (Z.eqb_spec (fillLevel b) (length b)); cbn [negb].
  - zcases; repeat split; lia.
  - rewrite (u16_small (fillLevel b + 1)) by lia.
    zcases; repeat split; lia.
Qed.

Lemma bufferPop_level (mem : Memory) (b : USARTBuffer) :
  level_ok b ->
  level_step b (snd (bufferPop mem b))
             0 (if fst (fst (bufferPop mem b)) then 1 else 0).
Proof.
  intros (Hf & HL & Hw & Hm). unfold bufferPop.
  rewrite (take_free _ Hm).
  unfold level_step, level_ok, clamp, xSemaphoreGive.
  destruct (Z.eqb_spec (fillLevel b) 0); cbn [negb fst snd set_mutex
    length fillLevel highWater mutex].
  - repeat split; lia.
  - rewrite (u16_small (fillLevel b - 1)) by lia.
    repeat split; lia.
Qed.

Lemma writeBytes_level (mem : Memory) (usart : USART) (bytes : list byte)
    (n : Z) :
  level_ok (txBuffer usart) ->
  0 <= n < 65536 ->
  let '(r, _, usart') := writeBytes mem usart bytes n in
  level_step (txBuffer usart) (txBuffer usart') r 0 /\
  rxBuffer usart' = rxBuffer usart.
Proof.
  intros (Hf & HL & Hw & Hm) Hn. unfold writeBytes. cbv zeta.
  set (tx := txBuffer usart) in *.
  destruct (n >? length tx) eqn:E.
  - split; [|reflexivity]. apply level_step_idle.
    exact (conj Hf (conj HL (conj Hw Hm))).
  - rewrite Z.gtb_ltb in E. apply Z.ltb_ge in E.
    rewrite (take_free _ Hm).
    destruct (u16 (base tx + length tx - tail tx) >=? n);
      (split; [|reflexivity]);
      unfold level_step, level_ok, clamp, xSemaphoreGive;
      cbn [txBuffer length fillLevel highWater mutex];
      (destruct (Z.leb_spec (fillLevel tx + n) (length tx));
       [rewrite (u16_small (fillLevel tx + n)) by lia|]);
      zcases; repeat split; lia.
Qed.

Lemma readBytes_level (mem : Memory) (usart : USART) (buf : Memory) (n : Z) :
  level_ok (rxBuffer usart) ->
  0 <= n < 65536 ->
  let '(r, _, usart') := readBytes mem usart buf n in
  level_step (rxBuffer usart) (rxBuffer usart') 0 r /\
  txBuffer usart' = txBuffer usart.
Proof.
  intros (Hf & HL & Hw & Hm) Hn. unfold readBytes. cbv zeta.
  set (rx := rxBuffer usart) in *.
  rewrite (take_free _ Hm).
  set (k := if fillLevel rx >=? n then n else fillLevel rx).
  assert (Hk : 0 <= k <= fillLevel rx) by (unfold k; zcases).
  destruct (k <=? u16 (base rx + length rx - head rx));
    (split; [|reflexivity]);
    unfold level_step, level_ok, clamp, xSemaphoreGive;
    cbn [rxBuffer set_rxBuffer length fillLevel highWater mutex];
    rewrite (u16_small (fillLevel rx - k)) by lia;
    repeat split; lia.
Qed.

(** ** The pointers along the operations *)

Lemma bufferPush_ok (mem : Memory) (b : USARTBuffer) (d : byte) :
  buf_ok b ->
  exists mem' b',
    bufferPush mem b d = Some (mem', b') /\ buf_ok b' /\
    base b' = base b /\ length b' = length b.
Proof.
  intros ((HL & Hb & Hr) & (Hf & Hh & Ht) & Hm). unfold bufferPush.
  rewrite (take_free _ Hm). eexists. eexists. split; [reflexivity|].
  open_buf_ok.
  destruct (Z.eqb_spec (fillLevel b) (length b)); cbn [negb];
    destruct (Z.eqb_spec (base b + length b) (tail b + 1));
    repeat rewrite u16_small by lia; repeat split; lia.
Qed.

Lemma bufferPop_ok (mem : Memory) (b : USARTBuffer) :
  buf_ok b ->
  buf_ok (snd (bufferPop mem b)) /\
  base (snd (bufferPop mem b)) = base b /\
  length (snd (bufferPop mem b)) = length b.
Proof.
  intros ((HL & Hb & Hr) & (Hf & Hh & Ht) & Hm). unfold bufferPop.
  rewrite (take_free _ Hm).
  destruct (Z.eqb_spec (fillLevel b) 0); cbn [negb snd]; open_buf_ok.
  - repeat split; lia.
  - destruct (Z.eqb_spec (base b + length b) (head b + 1));
      repeat rewrite u16_small by lia; repeat split; lia.
Qed.

Lemma writeBytes_ok (mem : Memory) (usart : USART) (bytes : list byte)
    (n : Z) :
  buf_ok (txBuffer usart) ->
  0 <= n < 65536 ->
  let '(_, _, usart') := writeBytes mem usart bytes n in
  buf_ok (txBuffer usart') /\
  base (txBuffer usart') = base (txBuffer usart) /\
  length (txBuffer usart') = length (txBuffer usart).
Proof.
  intros ((HL & Hb & Hr) & (Hf & Hh & Ht) & Hm) Hn.
  unfold writeBytes. cbv zeta.
  set (tx := txBuffer usart) in *.
  destruct (n >? length tx) eqn:E.
  - fold tx. open_buf_ok. repeat split; lia || assumption.
  - rewrite Z.gtb_ltb in E. apply Z.ltb_ge in E.
    rewrite (take_free _ Hm).
    rewrite (u16_small (base tx + length tx - tail tx)) by lia.
    destruct (Z.leb_spec n (base tx + length tx - tail tx)) as [Hfit|Hwrap];
      rewrite Z.geb_leb;
      [rewrite (proj2 (Z.leb_le _ _) Hfit)
      |rewrite (proj2 (Z.leb_gt _ _) Hwrap)];
      cbn [txBuffer]; open_buf_ok.
    + destruct (Z.eqb_spec n (base tx + length tx - tail tx));
        destruct (Z.leb_spec (fillLevel tx + n) (length tx));
        repeat rewrite u16_small by lia; repeat split; lia.
    + rewrite (u16_small (n - _)) by lia.
      destruct (Z.leb_spec (fillLevel tx + n) (length tx));
        repeat rewrite u16_small by lia; repeat split; lia.
Qed.

Lemma readBytes_ok (mem : Memory) (usart : USART) (buf : Memory) (n : Z) :
  buf_ok (rxBuffer usart) ->
  0 <= n < 65536 ->
  let '(_, _, usart') := readBytes mem usart buf n in
  buf_ok (rxBuffer usart') /\
  base (rxBuffer usart') = base (rxBuffer usart) /\
  length (rxBuffer usart') = length (rxBuffer usart).
Proof.
  intros ((HL & Hb & Hr) & (Hf & Hh & Ht) & Hm) Hn.
  unfold readBytes. cbv zeta.
  set (rx := rxBuffer usart) in *.
  rewrite (take_free _ Hm).
  set (k := if fillLevel rx >=? n then n else fillLevel rx).
  assert (Hk : 0 <= k <= fillLevel rx) by (unfold k; zcases).
  rewrite (u16_small (base rx + length rx - head rx)) by lia.
  destruct (Z.leb_spec k (base rx + length rx - head rx)) as [Hfit|Hwrap];
    cbn [rxBuffer set_rxBuffer]; open_buf_ok.
  - destruct (Z.eqb_spec k (base rx + length rx - head rx));
      repeat rewrite u16_small by lia; repeat split; lia.
  - rewrite (u16_small (k - _)) by lia.
    repeat rewrite u16_small by lia; repeat split; lia.
Qed.

Lemma writeBytes_rxBuffer (mem : Memory) (usart : USART) (bytes : list byte)
    (n : Z) :
  rxBuffer (snd (writeBytes mem usart bytes n)) = rxBuffer usart.
Proof.
  unfold writeBytes. cbv zeta.
  destruct (n >? _); [reflexivity|].
  destruct (xSemaphoreTake _); [|reflexivity].
  destruct (u16 _ >=? n); reflexivity.
Qed.

Lemma readBytes_txBuffer (mem : Memory) (usart : USART) (buf : Memory)
    (n : Z) :
  txBuffer (snd (readBytes mem usart buf n)) = txBuffer usart.
Proof.
  unfold readBytes. cbv zeta.
  destruct (xSemaphoreTake _); [|reflexivity].
  destruct (_ <=? _); reflexivity.
Qed.

(** ** Sequences of operations *)

Lemma step_level (s : State) (op : Op) :
  chan_level s ->
  exists s' t,
    step op s = Some (s', t) /\
    level_step (txBuffer (st_usart s)) (txBuffer (st_usart s'))
               (txIn t) (txOut t) /\
    level_step (rxBuffer (st_usart s)) (rxBuffer (st_usart s'))
               (rxIn t) (rxOut t).
Proof.
  intros [Htx Hrx]. destruct s as [mem u]. cbn [st_usart] in *.
  destruct op as [d|d| | |bytes n|n]; cbn [step st_mem st_usart].
  - destruct (bufferPush_level mem _ d Htx) as (mem' & b' & E & Hs).
    rewrite E. eexists. eexists. split; [reflexivity|].
    cbn [st_usart set_txBuffer txBuffer rxBuffer txIn txOut rxIn rxOut].
    split; [exact Hs|apply level_step_idle; exact Hrx].
  - destruct (bufferPush_level mem _ d Hrx) as (mem' & b' & E & Hs).
    rewrite E. eexists. eexists. split; [reflexivity|].
    cbn [st_usart set_rxBuffer txBuffer rxBuffer txIn txOut rxIn rxOut].
    split; [apply level_step_idle; exact Htx|exact Hs].
  - pose proof (bufferPop_level mem _ Htx) as Hs.
    destruct (bufferPop mem (txBuffer u)) as [[ok od] b'].
    eexists. eexists. split; [reflexivity|].
    cbn [st_usart set_txBuffer txBuffer rxBuffer txIn txOut rxIn rxOut].
    split; [exact Hs|apply level_step_idle; exact Hrx].
  - pose proof (bufferPop_level mem _ Hrx) as Hs.
    destruct (bufferPop mem (rxBuffer u)) as [[ok od] b'].
    eexists. eexists. split; [reflexivity|].
    cbn [st_usart set_rxBuffer txBuffer rxBuffer txIn txOut rxIn rxOut].
    split; [apply level_step_idle; exact Htx|exact Hs].
  - pose proof (writeBytes_level mem u bytes (u16 n) Htx (u16_range n)) as Hs.
    destruct (writeBytes mem u bytes (u16 n)) as [[r mem'] u'].
    destruct Hs as [Hs Hsame].
    eexists. eexists. split; [reflexivity|].
    cbn [st_usart txIn txOut rxIn rxOut]. rewrite Hsame.
    split; [exact Hs|apply level_step_idle; exact Hrx].
  - pose proof (readBytes_level mem u scratch (u16 n) Hrx (u16_range n))
      as Hs.
    destruct (readBytes mem u scratch (u16 n)) as [[r buf'] u'].
    destruct Hs as [Hs Hsame].
    eexists. eexists. split; [reflexivity|].
    cbn [st_usart txIn txOut rxIn rxOut]. rewrite Hsame.
    split; [apply level_step_idle; exact Htx|exact Hs].
Qed.


Lemma step_ok (s : State) (op : Op) :
  chan_ok s ->
  exists s' t,
    step op s = Some (s', t) /\ chan_ok s' /\
    same_region (st_usart s) (st_usart s').
Proof.
  intros [Htx Hrx]. destruct s as [mem u]. unfold chan_ok, same_region.
  cbn [st_usart] in *.
  destruct op as [d|d| | |bytes n|n]; cbn [step st_mem st_usart].
  - destruct (bufferPush_ok mem _ d Htx) as (mem' & b' & E & Hs & Hb & Hl).
    rewrite E. eexists. eexists. split; [reflexivity|].
    cbn [st_usart set_txBuffer txBuffer rxBuffer]. auto 8.
  - destruct (bufferPush_ok mem _ d Hrx) as (mem' & b' & E & Hs & Hb & Hl).
    rewrite E. eexists. eexists. split; [reflexivity|].
    cbn [st_usart set_rxBuffer txBuffer rxBuffer]. auto 8.
  - pose proof (bufferPop_ok mem _ Htx) as (Hs & Hb & Hl).
    destruct (bufferPop mem (txBuffer u)) as [[ok od] b'].
    eexists. eexists. split; [reflexivity|].
    cbn [st_usart set_txBuffer txBuffer rxBuffer snd] in *. auto 8.
  - pose proof (bufferPop_ok mem _ Hrx) as (Hs & Hb & Hl).
    destruct (bufferPop mem (rxBuffer u)) as [[ok od] b'].
    eexists. eexists. split; [reflexivity|].
    cbn [st_usart set_rxBuffer txBuffer rxBuffer snd] in *. auto 8.
  - pose proof (writeBytes_ok mem u bytes (u16 n) Htx (u16_range n)) as Hs.
    pose proof (writeBytes_rxBuffer mem u bytes (u16 n)) as Hsame.
    destruct (writeBytes mem u bytes (u16 n)) as [[r mem'] u'].
    destruct Hs as (Hs & Hb & Hl).
    eexists. eexists. split; [reflexivity|].
    cbn [st_usart snd] in *. rewrite Hsame. auto 8.
  - pose proof (readBytes_ok mem u scratch (u16 n) Hrx (u16_range n)) as Hs.
    pose proof (readBytes_txBuffer mem u scratch (u16 n)) as Hsame.
    destruct (readBytes mem u scratch (u16 n)) as [[r buf'] u'].
    destruct Hs as (Hs & Hb & Hl).
    eexists. eexists. split; [reflexivity|].
    cbn [st_usart snd] in *. rewrite Hsame. auto 8.
Qed.

Lemma initUsart_level (M allocated : Z) (prev : USART)
    (periph : USART_TypeDef) (txSize rxSize : Z) (usart : USART)
    (allocated' : Z) (mem : Memory) :
  initUsart M allocated prev periph txSize rxSize = (true, usart, allocated') ->
  chan_level (mkState mem usart) /\
  highWater (txBuffer usart) = 0 /\ highWater (rxBuffer usart) = 0 /\
  fillLevel (txBuffer usart) = 0 /\ fillLevel (rxBuffer usart) = 0.
Proof.
  unfold initUsart. destruct (_ >? _); [discriminate|].
  cbn [bufferInit length]. intros E. injection E as <- _.
  unfold chan_level, level_ok, xSemaphoreCreateMutex.
  cbn [st_usart txBuffer rxBuffer length fillLevel highWater mutex].
  pose proof (u16_range txSize). pose proof (u16_range rxSize).
  repeat split; lia.
Qed.

Lemma initUsart_ok (M allocated : Z) (prev : USART)
    (periph : USART_TypeDef) (txSize rxSize : Z) (usart : USART)
    (allocated' : Z) (mem : Memory) :
  initUsart M allocated prev periph txSize rxSize = (true, usart, allocated') ->
  M <= 65536 -> 0 <= allocated -> 1 <= txSize -> 1 <= rxSize ->
  chan_ok (mkState mem usart) /\
  base (txBuffer usart) = allocated /\ length (txBuffer usart) = txSize /\
  base (rxBuffer usart) = allocated + txSize /\
  length (rxBuffer usart) = rxSize.
Proof.
  unfold initUsart. destruct (_ >? _) eqn:C; [discriminate|].
  rewrite Z.gtb_ltb in C. apply Z.ltb_ge in C.
  cbn [bufferInit length]. intros E HM Ha Ht Hr. injection E as <- _.
  unfold chan_ok, xSemaphoreCreateMutex. open_buf_ok.
  cbn [st_usart txBuffer rxBuffer length fillLevel highWater mutex base
       head tail].
  rewrite (u16_small txSize) by lia. rewrite (u16_small rxSize) by lia.
  rewrite (u16_small (allocated + txSize)) by lia.
  repeat split; lia.
Qed.

Lemma run_level (ops : list Op) :
  forall s, chan_level s ->
    exists s', run ops s = Some s' /\ chan_level s'.
Proof.
  induction ops as [|op ops IH]; intros s Hs.
  - exists s. cbn [run]. auto.
  - destruct (step_level s op Hs) as (s1 & t & E & Htx & Hrx).
    cbn [run]. rewrite E.
    destruct Htx as (_ & Otx & _). destruct Hrx as (_ & Orx & _).
    apply IH. exact (conj Otx Orx).
Qed.

Lemma run_ok (ops : list Op) :
  forall s, chan_ok s ->
    exists s', run ops s = Some s' /\ chan_ok s' /\
               same_region (st_usart s) (st_usart s').
Proof.
  induction ops as [|op ops IH]; intros s Hs.
  - exists s. cbn [run]. unfold same_region. auto 8.
  - destruct (step_ok s op Hs) as (s1 & t & E & H1 & G1).
    cbn [run]. rewrite E.
    destruct (IH s1 H1) as (s' & R & H' & G').
    exists s'. split; [exact R|]. split; [exact H'|].
    unfold same_region in *. repeat split; lia.
Qed.

(** ** One buffer at a time *)

Lemma u16_le (x : Z) : 0 <= x -> u16 x <= x.
Proof. intros H. unfold u16. apply Z.mod_le; lia. Qed.

(** No operation changes the region of a buffer. *)
Lemma step_same_region (s : State) (op : Op) (s' : State) (t : Transfer) :
  step op s = Some (s', t) ->
  same_region (st_usart s) (st_usart s').
Proof.
  destruct s as [mem u]. unfold same_region.
  destruct op as [d|d| | |bytes n|n]; cbn [step st_mem st_usart].
  - unfold bufferPush. destruct (xSemaphoreTake _); [|discriminate].
    intros E. injection E as <- _. cbn. auto.
  - unfold bufferPush. destruct (xSemaphoreTake _); [|discriminate].
    intros E. injection E as <- _. cbn. auto.
  - unfold bufferPop. destruct (xSemaphoreTake _);
      [destruct (negb _)|]; intros E; injection E as <- _; cbn; auto.
  - unfold bufferPop. destruct (xSemaphoreTake _);
      [destruct (negb _)|]; intros E; injection E as <- _; cbn; auto.
  - unfold writeBytes. cbv zeta. destruct (_ >? _);
      [|destruct (xSemaphoreTake _); [destruct (u16 _ >=? _)|]];
      intros E; injection E as <- _; cbn; auto.
  - unfold readBytes. cbv zeta.
    destruct (xSemaphoreTake _); [destruct (_ <=? _)|];
      intros E; injection E as <- _; cbn; auto.
Qed.

(** The operations keep the invariants of the transmit buffer, whatever
    the state of the receive buffer, and conversely. *)
Lemma step_tx_ok (s : State) (op : Op) (s' : State) (t : Transfer) :
  buf_ok (txBuffer (st_usart s)) ->
  step op s = Some (s', t) ->
  buf_ok (txBuffer (st_usart s')).
Proof.
  intros Htx. destruct s as [mem u]. cbn [st_usart] in *.
  destruct op as [d|d| | |bytes n|n]; cbn [step st_mem st_usart].
  - destruct (bufferPush_ok mem _ d Htx) as (mem' & b' & E & Hs & _).
    rewrite E. intros E'. injection E' as <- _. exact Hs.
  - destruct (bufferPush mem (rxBuffer u) d) as [[mem' b']|];
      [|discriminate].
    intros E'. injection E' as <- _. exact Htx.
  - pose proof (bufferPop_ok mem _ Htx) as (Hs & _).
    destruct (bufferPop mem (txBuffer u)) as [[ok od] b'].
    intros E'. injection E' as <- _. exact Hs.
  - destruct (bufferPop mem (rxBuffer u)) as [[ok od] b'].
    intros E'. injection E' as <- _. exact Htx.
  - pose proof (writeBytes_ok mem u bytes (u16 n) Htx (u16_range n)) as Hs.
    destruct (writeBytes mem u bytes (u16 n)) as [[r mem'] u'].
    intros E'. injection E' as <- _. apply Hs.
  - pose proof (readBytes_txBuffer mem u scratch (u16 n)) as Hsame.
    destruct (readBytes mem u scratch (u16 n)) as [[r buf'] u'].
    intros E'. injection E' as <- _. cbn [st_usart snd] in *.
    rewrite Hsame. exact Htx.
Qed.

Lemma step_rx_ok (s : State) (op : Op) (s' : State) (t : Transfer) :
  buf_ok (rxBuffer (st_usart s)) ->
  step op s = Some (s', t) ->
  buf_ok (rxBuffer (st_usart s')).
Proof.
  intros Hrx. destruct s as [mem u]. cbn [st_usart] in *.
  destruct op as [d|d| | |bytes n|n]; cbn [step st_mem st_usart].
  - destruct (bufferPush mem (txBuffer u) d) as [[mem' b']|];
      [|discriminate].
    intros E'. injection E' as <- _. exact Hrx.
  - destruct (bufferPush_ok mem _ d Hrx) as (mem' & b' & E & Hs & _).
    rewrite E. intros E'. injection E' as <- _. exact Hs.
  - destruct (bufferPop mem (txBuffer u)) as [[ok od] b'].
    intros E'. injection E' as <- _. exact Hrx.
  - pose proof (bufferPop_ok mem _ Hrx) as (Hs & _).
    destruct (bufferPop mem (rxBuffer u)) as [[ok od] b'].
    intros E'. injection E' as <- _. exact Hs.
  - pose proof (writeBytes_rxBuffer mem u bytes (u16 n)) as Hsame.
    destruct (writeBytes mem u bytes (u16 n)) as [[r mem'] u'].
    intros E'. injection E' as <- _. cbn [st_usart snd] in *.
    rewrite Hsame. exact Hrx.
  - pose proof (readBytes_ok mem u scratch (u16 n) Hrx (u16_range n)) as Hs.
    destruct (readBytes mem u scratch (u16 n)) as [[r buf'] u'].
    intros E'. injection E' as <- _. apply Hs.
Qed.

Lemma run_buffers_ok (ops : list Op) :
  forall s s',
    run ops s = Some s' ->
    same_region (st_usart s) (st_usart s') /\
    (buf_ok (txBuffer (st_usart s)) -> buf_ok (txBuffer (st_usart s'))) /\
    (buf_ok (rxBuffer (st_usart s)) -> buf_ok (rxBuffer (st_usart s'))).
Proof.
  induction ops as [|op ops IH]; intros s s' R; cbn [run] in R.
  - injection R as <-. unfold same_region. auto 8.
  - destruct (step op s) as [[s1 t]|] eqn:E; [|discriminate].
    destruct (IH s1 s' R) as (G & Htx & Hrx).
    pose proof (step_same_region s op s1 t E) as G1.
    split; [unfold same_region in *; repeat split; lia|]. split.
    + intros H. apply Htx. exact (step_tx_ok s op s1 t H E).
    + intros H. apply Hrx. exact (step_rx_ok s op s1 t H E).
Qed.

(** What [initUsart] sets up, for buffers of any size. *)
Lemma initUsart_buffers (M allocated : Z) (prev : USART)
    (periph : USART_TypeDef) (txSize rxSize : Z) (usart : USART)
    (allocated' : Z) :
  initUsart M allocated prev periph txSize rxSize = (true, usart, allocated') ->
  M <= 65536 -> 0 <= allocated -> 0 <= txSize -> 0 <= rxSize ->
  base (txBuffer usart) = allocated /\
  (txSize <= 65535 -> length (txBuffer usart) = txSize) /\
  (allocated + txSize <= 65535 ->
   base (rxBuffer usart) = allocated + txSize) /\
  (rxSize <= 65535 -> length (rxBuffer usart) = rxSize) /\
  (1 <= length (txBuffer usart) -> buf_ok (txBuffer usart)) /\
  (1 <= length (rxBuffer usart) -> buf_ok (rxBuffer usart)).
Proof.
  unfold initUsart. destruct (_ >? _) eqn:C; [discriminate|].
  rewrite Z.gtb_ltb in C. apply Z.ltb_ge in C.
  cbn [bufferInit length]. intros E HM Ha Ht Hr. injection E as <- _.
  unfold xSemaphoreCreateMutex. open_buf_ok.
  cbn [txBuffer rxBuffer length fillLevel highWater mutex base head tail].
  pose proof (u16_range txSize). pose proof (u16_range rxSize).
  pose proof (u16_le txSize Ht). pose proof (u16_le rxSize Hr).
  pose proof (u16_range (allocated + u16 txSize)).
  pose proof (u16_le (allocated + u16 txSize) ltac:(lia)).
  split; [reflexivity|]. split; [intros; apply u16_small; lia|].
  split; [intros; rewrite (u16_small txSize) by lia; apply u16_small; lia|].
  split; [intros; apply u16_small; lia|].
  split; intros; repeat split; lia.
Qed.

(** C7, amended. A channel is initialised by [initUsart] in a master
    buffer that the [uint16_t] offsets can address.  After every finite
    sequence of pushes, pops, [writeBytes] and [readBytes] on it, every call
    returns and both buffers keep their region.  Each of its two buffers
    that has a length of at least one byte, whatever the length of the
    other, keeps [0 <= fillLevel <= length] and [head] and [tail] in
    [[base, base + length)]; and every further operation leaves its
    [fillLevel] at the value before the operation, plus the bytes the
    operation put in, minus the bytes it took out, clamped to
    [[0, length]]. *)
Theorem ring_invariants (M allocated : Z) (prev : USART)
    (periph : USART_TypeDef) (txSize rxSize : Z) (usart : USART)
    (allocated' : Z) (mem : Memory) (ops : list Op) :
  initUsart M allocated prev periph txSize rxSize = (true, usart, allocated') ->
  M <= 65536 -> 0 <= allocated -> 0 <= txSize -> 0 <= rxSize ->
  exists s,
    run ops (mkState mem usart) = Some s /\
    same_region usart (st_usart s) /\
    base (txBuffer usart) = allocated /\
    (txSize <= 65535 -> length (txBuffer usart) = txSize) /\
    (allocated + txSize <= 65535 ->
     base (rxBuffer usart) = allocated + txSize) /\
    (rxSize <= 65535 -> length (rxBuffer usart) = rxSize) /\
    (1 <= length (txBuffer usart) ->
     ring_ok (txBuffer (st_usart s)) /\
     forall op, exists s' t,
       step op s = Some (s', t) /\
       ring_ok (txBuffer (st_usart s')) /\
       fillLevel (txBuffer (st_usart s')) =
         clamp 0 (length (txBuffer usart))
               (fillLevel (txBuffer (st_usart s)) + txIn t - txOut t)) /\
    (1 <= length (rxBuffer usart) ->
     ring_ok (rxBuffer (st_usart s)) /\
     forall op, exists s' t,
       step op s = Some (s', t) /\
       ring_ok (rxBuffer (st_usart s')) /\
       fillLevel (rxBuffer (st_usart s')) =
         clamp 0 (length (rxBuffer usart))
               (fillLevel (rxBuffer (st_usart s)) + rxIn t - rxOut t)).
Proof.
  intros Hinit HM Ha Ht Hr.
  destruct (initUsart_buffers _ _ _ _ _ _ _ _ Hinit HM Ha Ht Hr)
    as (Btx & Ltx & Brx & Lrx & Itx & Irx).
  destruct (initUsart_level _ _ _ _ _ _ _ _ mem Hinit) as (Hlv & _).
  destruct (run_level ops _ Hlv) as (s & R & Hl).
  destruct (run_buffers_ok ops _ _ R) as (G & Ktx & Krx).
  cbn [st_usart] in G, Ktx, Krx.
  pose proof G as (G1 & G2 & G3 & G4).
  exists s. split; [exact R|]. split; [exact G|].
  split; [exact Btx|]. split; [exact Ltx|]. split; [exact Brx|].
  split; [exact Lrx|]. split.
  - intros H1. pose proof (Ktx (Itx H1)) as Hs.
    split; [exact (proj1 (proj2 Hs))|].
    intros op.
    destruct (step_level s op Hl) as (s' & t & E & Stx & _).
    exists s', t. split; [exact E|].
    split; [exact (proj1 (proj2 (step_tx_ok s op s' t Hs E)))|].
    destruct Stx as (_ & _ & Ftx & _). rewrite Ftx, G2. reflexivity.
  - intros H1. pose proof (Krx (Irx H1)) as Hs.
    split; [exact (proj1 (proj2 Hs))|].
    intros op.
    destruct (step_level s op Hl) as (s' & t & E & _ & Srx).
    exists s', t. split; [exact E|].
    split; [exact (proj1 (proj2 (step_rx_ok s op s' t Hs E)))|].
    destruct Srx as (_ & _ & Frx & _). rewrite Frx, G4. reflexivity.
Qed.

Lemma ring_invariants_witness :
  exists s,
    run [OpWriteBytes [1; 2; 3] 3; OpPushRx 5; OpPushTx 4; OpPopTx;
         OpReadBytes 2; OpPopRx]
        (mkState masterBuffer0 (channel 8 0)) = Some s /\
    length (rxBuffer (st_usart s)) = 0 /\
    ring_ok (txBuffer (st_usart s)).
Proof.
  destruct (ring_invariants 1024 0 usart0 (mkPeripheral false false) 8 0
              (channel 8 0) 8 masterBuffer0
              [OpWriteBytes [1; 2; 3] 3; OpPushRx 5; OpPushTx 4; OpPopTx;
               OpReadBytes 2; OpPopRx])
    as (s & R & (_ & _ & _ & G4) & _ & _ & _ & Lrx & Htx & _).
  - vm_compute. reflexivity.
  - lia.
  - lia.
  - lia.
  - lia.
  - exists s. split; [exact R|]. split.
    + rewrite G4. apply Lrx. lia.
    + apply Htx. vm_compute. intro C. discriminate C.
Defined.

(** C7 as stated fails.  In a transmit buffer of length 2, a [writeBytes]
    of 2 bytes, a push and a pop leave [fillLevel] at 1, while 3 bytes were
    accepted and 1 taken out, and 3 - 1 clamped to [[0, 2]] is 2.  And a
    channel initialised with a transmit buffer of 0 bytes has [head] and
    [tail] at [base], outside the empty interval [[base, base + 0)]. *)
Lemma fill_is_not_clamped_net_count :
  (let ops := [OpWriteBytes [1; 2] 2; OpPushTx 3; OpPopTx] in
   let s0 := mkState masterBuffer0 (channel 2 2) in
   match run ops s0 with
   | Some s =>
       let tx := txBuffer (st_usart s) in
       let t := transferred ops s0 in
       fillLevel tx = 1 /\ txIn t = 3 /\ txOut t = 1 /\
       fillLevel tx <> clamp 0 (length tx) (txIn t - txOut t)
   | None => False
   end) /\
  ~ ring_ok (txBuffer (channel 0 4)).
Proof.
  split.
  - vm_compute. repeat split; try reflexivity. discriminate.
  - unfold ring_ok. vm_compute. intros (_ & (_ & H) & _). discriminate H.
Qed.

(** ** The high-water mark *)

Lemma max_fill_cons (sel : USART -> USARTBuffer) (s : State)
    (l : list State) :
  max_fill sel (s :: l) = Z.max (fillLevel (sel (st_usart s))) (max_fill sel l).
Proof. reflexivity. Qed.

Lemma max_fill_nonneg (sel : USART -> USARTBuffer) (l : list State) :
  0 <= max_fill sel l.
Proof.
  induction l as [|s l IH]; [cbn; lia|]. rewrite max_fill_cons. lia.
Qed.

Lemma observed_head (ops : list Op) (s : State) :
  exists l, observed ops s = s :: l.
Proof. destruct ops; cbn [observed]; eexists; reflexivity. Qed.

Lemma run_highWater (ops : list Op) :
  forall s, chan_level s ->
    exists s',
      run ops s = Some s' /\ chan_level s' /\
      highWater (txBuffer (st_usart s')) =
        Z.max (highWater (txBuffer (st_usart s)))
              (max_fill txBuffer (observed ops s)) /\
      highWater (rxBuffer (st_usart s')) =
        Z.max (highWater (rxBuffer (st_usart s)))
              (max_fill rxBuffer (observed ops s)).
Proof.
  induction ops as [|op ops IH]; intros s Hs.
  - exists s. cbn [run observed]. rewrite !max_fill_cons.
    pose proof Hs as ((F1 & _ & W1 & _) & (F2 & _ & W2 & _)).
    cbn [max_fill fold_right].
    split; [reflexivity|]. split; [exact Hs|]. split; lia.
  - destruct (step_level s op Hs) as (s1 & t & E & Htx & Hrx).
    cbn [run observed]. rewrite E.
    destruct Htx as (_ & Otx & _ & Wtx). destruct Hrx as (_ & Orx & _ & Wrx).
    destruct (IH s1 (conj Otx Orx)) as (s' & R & Hl & M1 & M2).
    exists s'. split; [exact R|]. split; [exact Hl|].
    rewrite !max_fill_cons, M1, M2, Wtx, Wrx.
    destruct (observed_head ops s1) as (l & ->). rewrite !max_fill_cons.
    destruct Hs as ((F1 & _ & W1 & _) & (F2 & _ & W2 & _)).
    split; lia.
Qed.

(** C9. On a channel initialised by [initUsart], after every finite
    sequence of pushes, pops, [writeBytes] and [readBytes], every call
    returns and [highWater] of each buffer is the largest [fillLevel] among
    the states observed along the sequence (the initial one and the one
    after each operation); and no further operation decreases
    [highWater]. *)
Theorem highWater_is_max_fill (M allocated : Z) (prev : USART)
    (periph : USART_TypeDef) (txSize rxSize : Z) (usart : USART)
    (allocated' : Z) (mem : Memory) (ops : list Op) :
  initUsart M allocated prev periph txSize rxSize = (true, usart, allocated') ->
  exists s,
    run ops (mkState mem usart) = Some s /\
    highWater (txBuffer (st_usart s)) =
      max_fill txBuffer (observed ops (mkState mem usart)) /\
    highWater (rxBuffer (st_usart s)) =
      max_fill rxBuffer (observed ops (mkState mem usart)) /\
    forall op, exists s' t,
      step op s = Some (s', t) /\
      highWater (txBuffer (st_usart s)) <= highWater (txBuffer (st_usart s')) /\
      highWater (rxBuffer (st_usart s)) <= highWater (rxBuffer (st_usart s')).
Proof.
  intros Hinit.
  destruct (initUsart_level _ _ _ _ _ _ _ _ mem Hinit)
    as (Hlv & W1 & W2 & _).
  destruct (run_highWater ops _ Hlv) as (s & R & Hl & M1 & M2).
  cbn [st_usart] in M1, M2. rewrite W1 in M1. rewrite W2 in M2.
  pose proof (max_fill_nonneg txBuffer (observed ops (mkState mem usart))).
  pose proof (max_fill_nonneg rxBuffer (observed ops (mkState mem usart))).
  exists s. split; [exact R|]. split; [lia|]. split; [lia|].
  intros op.
  destruct (step_level s op Hl) as (s' & t & E & Stx & Srx).
  exists s', t. split; [exact E|].
  destruct Stx as (_ & _ & _ & Wtx). destruct Srx as (_ & _ & _ & Wrx).
  lia.
Qed.

Lemma highWater_is_max_fill_witness :
  exists s,
    run [OpWriteBytes [1; 2; 3] 3; OpPopTx; OpPushTx 4; OpPushRx 5]
        (mkState masterBuffer0 (channel 4 4)) = Some s /\
    highWater (txBuffer (st_usart s)) = 3 /\
    highWater (rxBuffer (st_usart s)) = 1.
Proof.
  destruct (highWater_is_max_fill 1024 0 usart0 (mkPeripheral false false)
              4 4 (channel 4 4) 8 masterBuffer0
              [OpWriteBytes [1; 2; 3] 3; OpPopTx; OpPushTx 4; OpPushRx 5])
    as (s & R & Wtx & Wrx & _).
  - vm_compute. reflexivity.
  - exists s. split; [exact R|]. rewrite Wtx, Wrx.
    split; vm_compute; reflexivity.
Defined.

(** ** The queue along [bufferPop], [writeBytes] and [bufferPush] *)

(** [k] pops return the first [k] bytes of the queue, or all of them. *)
Lemma popN_slots (mem : Memory) (k : nat) :
  forall b, buf_ok b ->
    fst (popN mem b k) =
    map (fun j => mem (slot b (Z.of_nat j)))
        (seq 0 (Nat.min k (Z.to_nat (fillLevel b)))).
Proof.
  induction k as [|k IH]; intros b Hb; [reflexivity|].
  pose proof Hb as ((HL & Hb0 & Hr) & (Hf & Hh & Ht) & Hm).
  pose proof (bufferPop_ok mem b Hb) as (Hb' & _).
  cbn [popN]. unfold bufferPop in *. rewrite (take_free _ Hm) in *.
  destruct (Z.eqb_spec (fillLevel b) 0) as [E|E]; cbn [negb] in *.
  - cbn [snd] in Hb'. rewrite (IH _ Hb'). cbn [set_mutex fillLevel].
    rewrite E.
    cbn [Z.to_nat]. rewrite !Nat.min_0_r. reflexivity.
  - cbn [snd] in Hb'.
    specialize (IH _ Hb'). destruct (popN mem _ k) as [ds b''].
    cbn [fst] in *. rewrite IH. cbn [fillLevel].
    rewrite (u16_small (fillLevel b - 1)) by lia.
    replace (Nat.min (S k) (Z.to_nat (fillLevel b)))
      with (S (Nat.min k (Z.to_nat (fillLevel b - 1)))) by lia.
    cbn [seq map]. f_equal.
    + unfold slot. f_equal. zcases.
    + rewrite <- seq_shift, map_map. apply map_ext_in.
      intros j Hj. apply in_seq in Hj. f_equal.
      unfold slot. cbn [head base length].
      destruct (Z.eqb_spec (base b + length b) (head b + 1));
        [|rewrite (u16_small (head b + 1)) by lia]; zcases.
Qed.

Lemma popN_contents (mem : Memory) (b : USARTBuffer) :
  buf_ok b ->
  fst (popN mem b (Z.to_nat (fillLevel b))) = contents mem b.
Proof.
  intros Hb. rewrite (popN_slots mem _ b Hb). rewrite Nat.min_id.
  reflexivity.
Qed.

Lemma queue_wf_buf_ok (b : USARTBuffer) : queue_wf b -> buf_ok b.
Proof. intros (H1 & H2 & _ & H3). exact (conj H1 (conj H2 H3)). Qed.

Lemma writeBytes_slot (mem : Memory) (usart : USART) (bytes : list byte)
    (n j : Z) :
  queue_wf (txBuffer usart) ->
  0 <= n <= length (txBuffer usart) ->
  0 <= j < length (txBuffer usart) ->
  let '(r, mem', usart') := writeBytes mem usart bytes n in
  r = n /\
  mem' (slot (txBuffer usart) j) =
    match written (fillLevel (txBuffer usart)) n (length (txBuffer usart)) j
    with
    | Some i => nth (Z.to_nat i) bytes 0
    | None => mem (slot (txBuffer usart) j)
    end.
Proof.
  intros ((HL & Hb & Hr) & (Hf & Hh & Ht) & Htail & Hm) Hn Hj.
  unfold writeBytes. cbv zeta.
  set (tx := txBuffer usart) in *.
  rewrite (take_free _ Hm).
  rewrite (u16_small (base tx + length tx - tail tx)) by lia.
  replace (n >? length tx) with false
    by (symmetry; rewrite Z.gtb_ltb; apply Z.ltb_ge; lia).
  destruct (base tx + length tx - tail tx >=? n) eqn:E.
  - split; [reflexivity|].
    unfold memcpy, written, slot, of_list in *.
    revert Htail. zcases; intros; f_equal; lia.
  - rewrite Z.geb_leb in E. apply Z.leb_gt in E.
    rewrite (u16_small (n - _)) by lia.
    split; [reflexivity|].
    unfold memcpy, written, slot, of_list in *.
    revert Htail. zcases; intros; f_equal; lia.
Qed.

(** The fields of the transmit buffer after a write that is not refused. *)
Lemma writeBytes_queue (mem : Memory) (usart : USART) (bytes : list byte)
    (n : Z) :
  queue_wf (txBuffer usart) ->
  0 <= n <= length (txBuffer usart) ->
  let '(_, _, usart') := writeBytes mem usart bytes n in
  let tx := txBuffer usart in
  let tx' := txBuffer usart' in
  buf_ok tx' /\
  base tx' = base tx /\ length tx' = length tx /\ head tx' = head tx /\
  fillLevel tx' = Z.min (fillLevel tx + n) (length tx) /\
  (fillLevel tx + n <= length tx -> queue_wf tx').
Proof.
  intros ((HL & Hb & Hr) & (Hf & Hh & Ht) & Htail & Hm) Hn.
  unfold writeBytes. cbv zeta.
  set (tx := txBuffer usart) in *.
  replace (n >? length tx) with false
    by (symmetry; rewrite Z.gtb_ltb; apply Z.ltb_ge; lia).
  rewrite (take_free _ Hm).
  rewrite (u16_small (base tx + length tx - tail tx)) by lia.
  unfold queue_wf, slot in *. open_buf_ok.
  destruct (Z.leb_spec n (base tx + length tx - tail tx)) as [Hfit|Hwrap];
    rewrite Z.geb_leb;
    [rewrite (proj2 (Z.leb_le _ _) Hfit)
    |rewrite (proj2 (Z.leb_gt _ _) Hwrap)];
    cbn [txBuffer base length head tail fillLevel mutex].
  - destruct (Z.leb_spec (fillLevel tx + n) (length tx));
      [rewrite (u16_small (fillLevel tx + n)) by lia|];
      (destruct (Z.eqb_spec n (base tx + length tx - tail tx));
       [|rewrite (u16_small (tail tx + n)) by lia]);
      revert Htail; zcases; intros; repeat split; lia.
  - rewrite (u16_small (n - _)) by lia.
    rewrite (u16_small (base tx + _)) by lia.
    destruct (Z.leb_spec (fillLevel tx + n) (length tx));
      [rewrite (u16_small (fillLevel tx + n)) by lia|];
      revert Htail; zcases; intros; repeat split; lia.
Qed.

Lemma nth_map_seq (f : nat -> Z) (n i : nat) :
  (i < n)%nat -> nth i (map f (seq 0 n)) 0 = f i.
Proof.
  intros Hi. rewrite (nth_indep _ 0 (f 0%nat))
    by (rewrite length_map, length_seq; exact Hi).
  rewrite map_nth, seq_nth by exact Hi. reflexivity.
Qed.

Lemma length_to_list (m : Memory) (a : Z) (n : nat) :
  List.length (to_list m a n) = n.
Proof. unfold to_list. rewrite length_map, length_seq. reflexivity. Qed.

Lemma nth_to_list (m : Memory) (a : Z) (n i : nat) :
  (i < n)%nat -> nth i (to_list m a n) 0 = m (a + Z.of_nat i).
Proof. intros Hi. unfold to_list. rewrite nth_map_seq by exact Hi. reflexivity. Qed.

Lemma to_list_of_list (l : list byte) :
  to_list (of_list l) 0 (List.length l) = l.
Proof.
  apply (nth_ext _ _ 0 0).
  - apply length_to_list.
  - intros i Hi. rewrite length_to_list in Hi.
    rewrite nth_to_list by exact Hi. unfold of_list.
    destruct (Z.ltb_spec (0 + Z.of_nat i) 0); [lia|].
    f_equal. lia.
Qed.

(** The [j]-th byte of the queue. *)
Lemma nth_contents (mem : Memory) (b : USARTBuffer) (j : nat) :
  (j < Z.to_nat (fillLevel b))%nat ->
  nth j (contents mem b) 0 = mem (slot b (Z.of_nat j)).
Proof.
  intros Hj. unfold contents. rewrite nth_map_seq by exact Hj. reflexivity.
Qed.

Lemma length_contents (mem : Memory) (b : USARTBuffer) :
  List.length (contents mem b) = Z.to_nat (fillLevel b).
Proof. unfold contents. rewrite length_map, length_seq. reflexivity. Qed.

(** A write that finds room appends its bytes to the queue. *)
Lemma writeBytes_contents (mem : Memory) (usart : USART) (bytes : list byte)
    (n : Z) :
  queue_wf (txBuffer usart) ->
  0 <= n ->
  fillLevel (txBuffer usart) + n <= length (txBuffer usart) ->
  let '(r, mem', usart') := writeBytes mem usart bytes n in
  r = n /\
  queue_wf (txBuffer usart') /\
  fillLevel (txBuffer usart') = fillLevel (txBuffer usart) + n /\
  contents mem' (txBuffer usart') =
    contents mem (txBuffer usart) ++ to_list (of_list bytes) 0 (Z.to_nat n).
Proof.
  intros Hq Hn Hroom.
  pose proof Hq as ((HL & Hb & Hr) & (Hf & Hh & Ht) & Htail & Hm).
  assert (Hn' : 0 <= n <= length (txBuffer usart)) by lia.
  pose proof (writeBytes_queue mem usart bytes n Hq Hn') as HQ.
  pose proof (fun j => writeBytes_slot mem usart bytes n j Hq Hn') as HS.
  destruct (writeBytes mem usart bytes n) as [[r mem'] usart'].
  cbv zeta in HQ. destruct HQ as (Hok' & B' & L' & H' & F' & Q').
  split; [apply (HS 0); lia|]. split; [exact (Q' Hroom)|].
  split; [lia|].
  apply (nth_ext _ _ 0 0).
  - rewrite length_app, !length_contents, length_to_list. lia.
  - intros j Hj. rewrite length_contents in Hj.
    rewrite nth_contents by exact Hj.
    assert (Ej : slot (txBuffer usart') (Z.of_nat j)
                 = slot (txBuffer usart) (Z.of_nat j))
      by (unfold slot; rewrite B', L', H'; reflexivity).
    rewrite Ej.
    destruct (HS (Z.of_nat j) ltac:(lia)) as (_ & ->).
    unfold written.
    destruct (Nat.lt_ge_cases j (Z.to_nat (fillLevel (txBuffer usart))))
      as [Hold|Hnew].
    + rewrite app_nth1 by (rewrite length_contents; exact Hold).
      rewrite nth_contents by exact Hold. zcases.
    + rewrite app_nth2 by (rewrite length_contents; exact Hnew).
      rewrite length_contents, nth_to_list by lia. unfold of_list.
      zcases. f_equal. lia.
Qed.

(** A push that finds room appends its byte to the queue. *)
Lemma bufferPush_contents (mem : Memory) (b : USARTBuffer) (d : byte) :
  queue_wf b ->
  fillLevel b < length b ->
  exists mem' b',
    bufferPush mem b d = Some (mem', b') /\
    queue_wf b' /\
    fillLevel b' = fillLevel b + 1 /\
    contents mem' b' = contents mem b ++ [d].
Proof.
  intros ((HL & Hb & Hr) & (Hf & Hh & Ht) & Htail & Hm) Hroom.
  unfold bufferPush. rewrite (take_free _ Hm).
  eexists. eexists. split; [reflexivity|].
  replace (fillLevel b =? length b) with false
    by (symmetry; apply Z.eqb_neq; lia).
  cbn [negb]. rewrite (u16_small (fillLevel b + 1)) by lia.
  split; [|split; [reflexivity|]].
  - unfold queue_wf, slot in *. open_buf_ok.
    destruct (Z.eqb_spec (base b + length b) (tail b + 1));
      [|rewrite (u16_small (tail b + 1)) by lia];
      revert Htail; zcases; intros; repeat split; lia.
  - apply (nth_ext _ _ 0 0).
    + rewrite length_app, !length_contents. cbn [fillLevel List.length]. lia.
    + intros j Hj. rewrite length_contents in Hj. cbn [fillLevel] in Hj.
      rewrite nth_contents by exact Hj.
      unfold store, slot in *. cbn [head base length].
      destruct (Nat.lt_ge_cases j (Z.to_nat (fillLevel b))) as [Hold|Hnew].
      * rewrite app_nth1 by (rewrite length_contents; exact Hold).
        rewrite nth_contents by exact Hold. unfold slot.
        revert Htail. zcases.
      * rewrite app_nth2 by (rewrite length_contents; exact Hnew).
        rewrite length_contents.
        replace (j - Z.to_nat (fillLevel b))%nat with 0%nat by lia.
        cbn [nth]. revert Htail. zcases.
Qed.

(** Where [tail] is [fillLevel] positions ahead of [head], as it is until a
    write finds no room: two transmit buffers of the same length hold the
    same queue of fewer than [length] bytes, one placed so that the copy of
    [writeBytes] wraps across the end of the region, the other so that it
    does not.  The same bytes are written to both.  Then both writes are accepted, and any
    number of pops returns the same bytes in the same order from both; when
    the bytes find room, popping everything returns the bytes queued before
    followed by the bytes written, in the order of the input. *)
Theorem wrapped_write_same_order (mem1 mem2 : Memory) (u1 u2 : USART)
    (bytes : list byte) :
  let n := Z.of_nat (List.length bytes) in
  queue_wf (txBuffer u1) -> queue_wf (txBuffer u2) ->
  length (txBuffer u1) = length (txBuffer u2) ->
  fillLevel (txBuffer u1) < length (txBuffer u1) ->
  contents mem1 (txBuffer u1) = contents mem2 (txBuffer u2) ->
  tail (txBuffer u1) + n > base (txBuffer u1) + length (txBuffer u1) ->
  tail (txBuffer u2) + n <= base (txBuffer u2) + length (txBuffer u2) ->
  let '(r1, m1, v1) := writeBytes mem1 u1 bytes n in
  let '(r2, m2, v2) := writeBytes mem2 u2 bytes n in
  r1 = n /\ r2 = n /\
  fillLevel (txBuffer v1) = fillLevel (txBuffer v2) /\
  (forall k, fst (popN m1 (txBuffer v1) k) = fst (popN m2 (txBuffer v2) k)) /\
  (fillLevel (txBuffer u1) + n <= length (txBuffer u1) ->
   fst (popN m1 (txBuffer v1) (Z.to_nat (fillLevel (txBuffer u1) + n)))
   = contents mem1 (txBuffer u1) ++ bytes).
Proof.
  intros n Hq1 Hq2 HL Hlt Hc Hwrap Hfit.
  pose proof Hq1 as ((HL1 & Hb1 & Hr1) & (Hf1 & Hh1 & Ht1) & _ & _).
  pose proof Hq2 as ((HL2 & Hb2 & Hr2) & (Hf2 & Hh2 & Ht2) & _ & _).
  assert (Hn1 : 0 <= n <= length (txBuffer u1)) by lia.
  assert (Hn2 : 0 <= n <= length (txBuffer u2)) by lia.
  assert (Hfill : fillLevel (txBuffer u1) = fillLevel (txBuffer u2)).
  { apply (f_equal (@List.length byte)) in Hc.
    rewrite !length_contents in Hc. lia. }
  pose proof (writeBytes_queue mem1 u1 bytes n Hq1 Hn1) as Q1.
  pose proof (writeBytes_queue mem2 u2 bytes n Hq2 Hn2) as Q2.
  pose proof (fun j => writeBytes_slot mem1 u1 bytes n j Hq1 Hn1) as S1.
  pose proof (fun j => writeBytes_slot mem2 u2 bytes n j Hq2 Hn2) as S2.
  pose proof (writeBytes_contents mem1 u1 bytes n Hq1 (proj1 Hn1)) as C1.
  destruct (writeBytes mem1 u1 bytes n) as [[r1 m1] v1].
  destruct (writeBytes mem2 u2 bytes n) as [[r2 m2] v2].
  cbv zeta in Q1, Q2.
  destruct Q1 as (Ok1 & B1 & L1 & H1 & F1 & _).
  destruct Q2 as (Ok2 & B2 & L2 & H2 & F2 & _).
  split; [apply (S1 0); lia|]. split; [apply (S2 0); lia|].
  split; [lia|]. split.
  - intros k. rewrite (popN_slots m1 k _ Ok1), (popN_slots m2 k _ Ok2).
    replace (fillLevel (txBuffer v2)) with (fillLevel (txBuffer v1)) by lia.
    apply map_ext_in. intros j Hj. apply in_seq in Hj.
    assert (E1 : slot (txBuffer v1) (Z.of_nat j) = slot (txBuffer u1) (Z.of_nat j))
      by (unfold slot; rewrite B1, L1, H1; reflexivity).
    assert (E2 : slot (txBuffer v2) (Z.of_nat j) = slot (txBuffer u2) (Z.of_nat j))
      by (unfold slot; rewrite B2, L2, H2; reflexivity).
    rewrite E1, E2.
    destruct (S1 (Z.of_nat j) ltac:(lia)) as (_ & ->).
    destruct (S2 (Z.of_nat j) ltac:(lia)) as (_ & ->).
    rewrite <- Hfill, <- HL.
    destruct (written _ _ _ _) eqn:W; [reflexivity|].
    assert (Hold : (j < Z.to_nat (fillLevel (txBuffer u1)))%nat).
    { revert W. unfold written. zcases; try discriminate. }
    rewrite <- (nth_contents mem1) by exact Hold.
    rewrite <- (nth_contents mem2) by lia.
    rewrite Hc. reflexivity.
  - intros Hroom. specialize (C1 Hroom).
    destruct C1 as (_ & Q' & F' & C').
    rewrite <- F', (popN_contents m1 _ Ok1), C'.
    unfold n. rewrite Nat2Z.id, to_list_of_list. reflexivity.
Qed.

Lemma wrapped_write_same_order_witness :
  tail (txBuffer (snd wrap_demo)) + 5
    > base (txBuffer (snd wrap_demo)) + length (txBuffer (snd wrap_demo)) /\
  let '(_, m1, v1) :=
    writeBytes (fst wrap_demo) (snd wrap_demo) [10; 20; 30; 40; 50]
               (Z.of_nat (List.length [10; 20; 30; 40; 50])) in
  fst (popN m1 (txBuffer v1) 5) = [10; 20; 30; 40; 50].
Proof.
  assert (Hq1 : queue_wf (txBuffer (snd wrap_demo)))
    by (vm_compute; repeat split; try reflexivity; intro C; discriminate C).
  assert (Hq2 : queue_wf (txBuffer (channel 8 8)))
    by (vm_compute; repeat split; try reflexivity; intro C; discriminate C).
  assert (HL : length (txBuffer (snd wrap_demo))
               = length (txBuffer (channel 8 8)))
    by (vm_compute; reflexivity).
  assert (Hf : fillLevel (txBuffer (snd wrap_demo))
               < length (txBuffer (snd wrap_demo)))
    by (vm_compute; reflexivity).
  assert (Hc : contents (fst wrap_demo) (txBuffer (snd wrap_demo))
               = contents masterBuffer0 (txBuffer (channel 8 8)))
    by (vm_compute; reflexivity).
  assert (Hw : tail (txBuffer (snd wrap_demo))
               + Z.of_nat (List.length [10; 20; 30; 40; 50])
               > base (txBuffer (snd wrap_demo))
                 + length (txBuffer (snd wrap_demo)))
    by (vm_compute; reflexivity).
  assert (Hn : tail (txBuffer (channel 8 8))
               + Z.of_nat (List.length [10; 20; 30; 40; 50])
               <= base (txBuffer (channel 8 8))
                  + length (txBuffer (channel 8 8)))
    by (vm_compute; intro C; discriminate C).
  assert (E0 : fillLevel (txBuffer (snd wrap_demo)) = 0)
    by (vm_compute; reflexivity).
  assert (C0 : contents (fst wrap_demo) (txBuffer (snd wrap_demo)) = [])
    by (vm_compute; reflexivity).
  pose proof (wrapped_write_same_order (fst wrap_demo) masterBuffer0
                (snd wrap_demo) (channel 8 8) [10; 20; 30; 40; 50]
                Hq1 Hq2 HL Hf Hc Hw Hn) as H.
  split; [exact Hw|].
  destruct (writeBytes (fst wrap_demo) (snd wrap_demo) _ _)
    as [[r1 m1] v1].
  destruct (writeBytes masterBuffer0 (channel 8 8) _ _) as [[r2 m2] v2].
  destruct H as (_ & _ & _ & _ & Hall).
  rewrite E0, C0, HL in Hall.
  exact (Hall ltac:(vm_compute; intro C; discriminate C)).
Defined.


(** ** The scenario of the specification, and [readBytes] *)

(** A pop keeps the queue well formed and leaves [tail] alone. *)
Lemma bufferPop_queue (mem : Memory) (b : USARTBuffer) :
  queue_wf b ->
  let b' := snd (bufferPop mem b) in
  queue_wf b' /\ base b' = base b /\ length b' = length b /\
  tail b' = tail b /\ fillLevel b' = Z.max 0 (fillLevel b - 1).
Proof.
  intros ((HL & Hb & Hr) & (Hf & Hh & Ht) & Htail & Hm).
  unfold bufferPop. rewrite (take_free _ Hm).
  unfold queue_wf, slot in *.
  destruct (Z.eqb_spec (fillLevel b) 0); cbn [negb snd]; open_buf_ok.
  - revert Htail. zcases; intros; repeat split; lia.
  - rewrite (u16_small (fillLevel b - 1)) by lia.
    destruct (Z.eqb_spec (base b + length b) (head b + 1));
      [|rewrite (u16_small (head b + 1)) by lia];
      revert Htail; zcases; intros; repeat split; lia.
Qed.

Lemma popN_queue (mem : Memory) (k : nat) :
  forall b, queue_wf b ->
    let b' := snd (popN mem b k) in
    queue_wf b' /\ base b' = base b /\ length b' = length b /\
    tail b' = tail b /\
    fillLevel b' = Z.max 0 (fillLevel b - Z.of_nat k).
Proof.
  induction k as [|k IH]; intros b Hq.
  - cbn [popN snd]. pose proof Hq as (_ & (Hf & _) & _).
    split; [exact Hq|]. repeat split; lia.
  - pose proof (bufferPop_queue mem b Hq) as (Hq' & B' & L' & T' & F').
    cbn [popN]. destruct (bufferPop mem b) as [[ok [d|]] b1];
      cbn [snd] in *; specialize (IH b1 Hq');
      destruct (popN mem b1 k) as [ds b2]; cbn [snd] in *;
      destruct IH as (Q2 & B2 & L2 & T2 & F2);
      (split; [exact Q2|]); repeat split; lia.
Qed.

Lemma initUsart_queue (M allocated : Z) (prev : USART)
    (periph : USART_TypeDef) (txSize rxSize : Z) (usart : USART)
    (allocated' : Z) :
  initUsart M allocated prev periph txSize rxSize = (true, usart, allocated') ->
  M <= 65536 -> 0 <= allocated -> 1 <= txSize -> 1 <= rxSize ->
  queue_wf (txBuffer usart) /\ queue_wf (rxBuffer usart) /\
  fillLevel (txBuffer usart) = 0 /\ fillLevel (rxBuffer usart) = 0 /\
  head (txBuffer usart) = base (txBuffer usart) /\
  length (txBuffer usart) = txSize.
Proof.
  unfold initUsart. destruct (_ >? _) eqn:C; [discriminate|].
  rewrite Z.gtb_ltb in C. apply Z.ltb_ge in C.
  cbn [bufferInit length]. intros E HM Ha Ht Hr. injection E as <- _.
  unfold queue_wf, slot, xSemaphoreCreateMutex. open_buf_ok.
  cbn [txBuffer rxBuffer length fillLevel highWater mutex base head tail].
  rewrite (u16_small txSize) by lia. rewrite (u16_small rxSize) by lia.
  rewrite (u16_small (allocated + txSize)) by lia.
  zcases; repeat split; lia.
Qed.

(** The scenario of the specification: on a freshly initialised channel
    whose transmit buffer has [txSize >= 5] bytes, write [txSize - 2]
    bytes, pop them all, then write 5 more.  The second copy wraps across
    the end of the region, and the 5 pops that follow return the 5 bytes in
    the order of the input. *)
Lemma write_pop_write_wraps (M allocated : Z) (prev : USART)
    (periph : USART_TypeDef) (txSize rxSize : Z) (usart : USART)
    (allocated' : Z) (mem : Memory) (bytes1 bytes2 : list byte) :
  initUsart M allocated prev periph txSize rxSize = (true, usart, allocated') ->
  M <= 65536 -> 0 <= allocated -> 5 <= txSize -> 1 <= rxSize ->
  Z.of_nat (List.length bytes1) = txSize - 2 ->
  List.length bytes2 = 5%nat ->
  let '(_, mem1, usart1) := writeBytes mem usart bytes1 (txSize - 2) in
  let '(out1, tx1) := popN mem1 (txBuffer usart1) (Z.to_nat (txSize - 2)) in
  let usart2 := set_txBuffer usart1 tx1 in
  let '(r, mem2, usart3) := writeBytes mem1 usart2 bytes2 5 in
  out1 = bytes1 /\
  tail tx1 + 5 > base tx1 + length tx1 /\
  r = 5 /\
  fst (popN mem2 (txBuffer usart3) 5) = bytes2.
Proof.
  intros Hinit HM Ha Ht Hr Hl1 Hl2.
  destruct (initUsart_queue _ _ _ _ _ _ _ _ Hinit HM Ha ltac:(lia) Hr)
    as (Q0 & _ & F0 & _ & H0 & L0).
  pose proof (writeBytes_contents mem usart bytes1 (txSize - 2) Q0
                ltac:(lia) ltac:(lia)) as W1.
  pose proof (writeBytes_queue mem usart bytes1 (txSize - 2) Q0
                ltac:(lia)) as G1.
  destruct (writeBytes mem usart bytes1 (txSize - 2))
    as [[r1 mem1] usart1].
  destruct W1 as (_ & Q1 & F1 & C1). cbv zeta in G1.
  destruct G1 as (_ & B1 & L1 & Hd1 & _).
  pose proof (popN_contents mem1 _ (queue_wf_buf_ok _ Q1)) as P1.
  pose proof (popN_queue mem1 (Z.to_nat (txSize - 2)) _ Q1) as PQ.
  rewrite F1, F0 in P1. rewrite Z.add_0_l in P1.
  destruct (popN mem1 (txBuffer usart1) (Z.to_nat (txSize - 2)))
    as [out1 tx1].
  cbn [fst snd] in *. destruct PQ as (Q2 & B2 & L2 & T2 & F2).
  assert (F2' : fillLevel tx1 = 0) by lia.
  pose proof (writeBytes_contents mem1 (set_txBuffer usart1 tx1) bytes2 5)
    as W2.
  cbn [set_txBuffer txBuffer] in W2.
  specialize (W2 Q2 ltac:(lia) ltac:(lia)).
  destruct (writeBytes mem1 (set_txBuffer usart1 tx1) bytes2 5)
    as [[r mem2] usart3].
  destruct W2 as (-> & Q3 & F3 & C3).
  split.
  { rewrite P1, C1.
    unfold contents. rewrite F0. cbn [Z.to_nat seq map app].
    rewrite <- Hl1, Nat2Z.id. apply to_list_of_list. }
  split.
  { destruct Q1 as (_ & _ & Tl & _). unfold slot in Tl.
    rewrite T2, B2, L2, Tl, F1, F0, Hd1, H0, B1, L1, L0.
    destruct (Z.ltb_spec (base (txBuffer usart) + (0 + (txSize - 2)))
                         (base (txBuffer usart) + txSize)); lia. }
  split; [reflexivity|].
  pose proof (popN_contents mem2 _ (queue_wf_buf_ok _ Q3)) as P3.
  rewrite F3, F2' in P3. cbn [Z.add Z.to_nat Pos.to_nat Pos.iter_op Init.Nat.add] in P3.
  change (Pos.to_nat 5) with 5%nat in P3.
  rewrite P3, C3.
  unfold contents at 1. rewrite F2'. cbn [Z.to_nat seq map app].
  change (Pos.to_nat 5) with 5%nat. rewrite <- Hl2. apply to_list_of_list.
Qed.

(** [readBytes] stores the first bytes of the queue in the caller's buffer,
    oldest first, whether or not they lie across the end of the region. *)
Lemma readBytes_contents (mem : Memory) (usart : USART) (buf : Memory)
    (n : Z) :
  buf_ok (rxBuffer usart) ->
  0 <= n < 65536 ->
  let '(r, buf', usart') := readBytes mem usart buf n in
  r = Z.min n (fillLevel (rxBuffer usart)) /\
  fillLevel (rxBuffer usart') = fillLevel (rxBuffer usart) - r /\
  to_list buf' 0 (Z.to_nat r)
  = firstn (Z.to_nat r) (contents mem (rxBuffer usart)).
Proof.
  intros ((HL & Hb & Hr) & (Hf & Hh & Ht) & Hm) Hn.
  unfold readBytes. cbv zeta.
  set (rx := rxBuffer usart) in *.
  rewrite (take_free _ Hm).
  set (k := if fillLevel rx >=? n then n else fillLevel rx).
  assert (Hk : k = Z.min n (fillLevel rx)) by (unfold k; zcases).
  rewrite (u16_small (base rx + length rx - head rx)) by lia.
  assert (Hpoint : forall buf',
            (forall j, 0 <= j < k -> buf' j = mem (slot rx j)) ->
            to_list buf' 0 (Z.to_nat k)
            = firstn (Z.to_nat k) (contents mem rx)).
  { intros buf' Hp. apply (nth_ext _ _ 0 0).
    - rewrite length_to_list, length_firstn, length_contents. lia.
    - intros i Hi. rewrite length_to_list in Hi.
      rewrite nth_to_list by exact Hi. rewrite nth_firstn.
      replace (i <? Z.to_nat k)%nat with true
        by (symmetry; apply Nat.ltb_lt; exact Hi).
      rewrite nth_contents by lia. rewrite Hp by lia.
      f_equal. }
  destruct (Z.leb_spec k (base rx + length rx - head rx)) as [Hfit|Hwrap];
    cbn [rxBuffer set_rxBuffer fillLevel];
    rewrite (u16_small (fillLevel rx - k)) by lia;
    (split; [exact Hk|]); (split; [reflexivity|]);
    apply Hpoint; intros j Hj; unfold memcpy, slot.
  - zcases. f_equal. lia.
  - rewrite (u16_small (k - _)) by lia. zcases; f_equal; lia.
Qed.

(** ** [writeLine] *)

Lemma strlen_range (line : list byte) :
  0 <= strlen line <= Z.of_nat (List.length line).
Proof.
  induction line as [|c rest IH]; cbn [strlen List.length]; [lia|].
  destruct (c =? 0); lia.
Qed.









(** * Further properties *)

(** ** The queue: [bufferPush], [bufferPop], [readBytes] *)

Lemma firstn_map_seq (f : nat -> Z) (k n : nat) :
  firstn k (map f (seq 0 n)) = map f (seq 0 (Nat.min k n)).
Proof.
  apply (nth_ext _ _ 0 0).
  - rewrite length_firstn, !length_map, !length_seq. reflexivity.
  - intros i Hi. rewrite length_firstn, length_map, length_seq in Hi.
    rewrite nth_firstn.
    replace (i <? k)%nat with true by (symmetry; apply Nat.ltb_lt; lia).
    rewrite !nth_map_seq by lia. reflexivity.
Qed.

(** Pushes that find room append their bytes to the queue. *)
Lemma pushAll_contents (l : list byte) :
  forall mem b,
    queue_wf b ->
    fillLevel b + Z.of_nat (List.length l) <= length b ->
    exists mem' b',
      pushAll mem b l = Some (mem', b') /\
      queue_wf b' /\
      base b' = base b /\ length b' = length b /\
      fillLevel b' = fillLevel b + Z.of_nat (List.length l) /\
      contents mem' b' = contents mem b ++ l.
Proof.
  induction l as [|d l IH]; intros mem b Hq Hroom.
  - exists mem, b. cbn [pushAll List.length Z.of_nat].
    rewrite app_nil_r. split; [reflexivity|]. split; [exact Hq|].
    repeat split; lia.
  - cbn [List.length] in Hroom.
    destruct (bufferPush_contents mem b d Hq ltac:(lia))
      as (mem1 & b1 & E1 & Q1 & F1 & C1).
    destruct (bufferPush_ok mem b d (queue_wf_buf_ok _ Hq))
      as (mem1' & b1' & E1' & _ & B1 & L1).
    rewrite E1 in E1'. injection E1' as <- <-.
    destruct (IH mem1 b1 Q1 ltac:(lia)) as (mem' & b' & E & Q & B & L & F & C).
    exists mem', b'. cbn [pushAll]. rewrite E1.
    split; [exact E|]. split; [exact Q|].
    cbn [List.length]. split; [lia|]. split; [lia|]. split; [lia|].
    rewrite C, C1, <- app_assoc. reflexivity.
Qed.

(** X1. Bytes pushed into a well-formed buffer that has room for them come
    out of [bufferPop] first in, first out: after the pushes, [k] pops
    return the first [k] bytes of the queue before followed by the pushed
    bytes; and once everything is popped the buffer is empty and a further
    pop reports failure. *)
Theorem push_pop_fifo (mem : Memory) (b : USARTBuffer) (l : list byte) :
  queue_wf b ->
  fillLevel b + Z.of_nat (List.length l) <= length b ->
  exists mem' b',
    pushAll mem b l = Some (mem', b') /\
    (forall k,
       fst (popN mem' b' k) = firstn k (contents mem b ++ l)) /\
    let b'' := snd (popN mem' b'
                      (Z.to_nat (fillLevel b) + List.length l)) in
    fillLevel b'' = 0 /\ queue_wf b'' /\
    fst (fst (bufferPop mem' b'')) = false.
Proof.
  intros Hq Hroom.
  destruct (pushAll_contents l mem b Hq Hroom)
    as (mem' & b' & E & Q & B & L & F & C).
  exists mem', b'. split; [exact E|]. split.
  - intros k. rewrite (popN_slots mem' k b' (queue_wf_buf_ok _ Q)).
    rewrite <- C. unfold contents. rewrite firstn_map_seq. reflexivity.
  - cbv zeta.
    pose proof (popN_queue mem' (Z.to_nat (fillLevel b) + List.length l) b' Q)
      as (Q2 & _ & _ & _ & F2).
    destruct Hq as (_ & (Hf & _) & _).
    assert (F0 : fillLevel
                   (snd (popN mem' b'
                           (Z.to_nat (fillLevel b) + List.length l))) = 0)
      by lia.
    split; [exact F0|]. split; [exact Q2|].
    unfold bufferPop. destruct Q2 as (_ & _ & _ & Hm).
    rewrite (take_free _ Hm), F0. reflexivity.
Qed.

Lemma push_pop_fifo_witness :
  exists mem' b',
    pushAll masterBuffer0 (rxBuffer (channel 8 8)) [1; 2; 3]
    = Some (mem', b') /\
    fst (popN mem' b' 3) = [1; 2; 3].
Proof.
  assert (Hq : queue_wf (rxBuffer (channel 8 8))) by by_eval.
  assert (Hr : fillLevel (rxBuffer (channel 8 8))
               + Z.of_nat (List.length [1; 2; 3])
               <= length (rxBuffer (channel 8 8))) by by_eval.
  destruct (push_pop_fifo masterBuffer0 (rxBuffer (channel 8 8)) [1; 2; 3]
              Hq Hr) as (mem' & b' & E & Hk & _).
  exists mem', b'. split; [exact E|]. rewrite (Hk 3%nat). by_eval.
Defined.

(** The receive buffer and the caller's buffer after [readBytes]. *)
Lemma readBytes_fields (mem : Memory) (usart : USART) (buf : Memory)
    (n : Z) :
  buf_ok (rxBuffer usart) ->
  0 <= n < 65536 ->
  let '(r, buf', usart') := readBytes mem usart buf n in
  let rx := rxBuffer usart in
  let rx' := rxBuffer usart' in
  r = Z.min n (fillLevel rx) /\
  base rx' = base rx /\ length rx' = length rx /\
  head rx' = slot rx r /\ tail rx' = tail rx /\
  fillLevel rx' = fillLevel rx - r /\ mutex rx' = false /\
  (forall a, ~ 0 <= a < r -> buf' a = buf a).
Proof.
  intros ((HL & Hb & Hr) & (Hf & Hh & Ht) & Hm) Hn.
  unfold readBytes. cbv zeta.
  set (rx := rxBuffer usart) in *.
  rewrite (take_free _ Hm).
  set (k := if fillLevel rx >=? n then n else fillLevel rx).
  assert (Hk : k = Z.min n (fillLevel rx)) by (unfold k; zcases).
  rewrite (u16_small (base rx + length rx - head rx)) by lia.
  unfold slot, xSemaphoreGive.
  destruct (Z.leb_spec k (base rx + length rx - head rx)) as [Hfit|Hwrap];
    cbn [rxBuffer set_rxBuffer base length head tail fillLevel mutex];
    rewrite (u16_small (fillLevel rx - k)) by lia.
  - destruct (Z.eqb_spec k (base rx + length rx - head rx));
      [|rewrite (u16_small (head rx + k)) by lia];
      (repeat split; try lia; try (zcases; fail));
      intros a Ha; unfold memcpy; zcases.
  - rewrite (u16_small (k - _)) by lia.
    rewrite (u16_small (base rx + _)) by lia.
    (repeat split; try lia; try (zcases; fail));
      intros a Ha; unfold memcpy; zcases.
Qed.

(** X2. [readBytes] on a well-formed receive buffer returns
    [min numBytes fillLevel], stores that many bytes of the queue, oldest
    first, at the start of the caller's buffer and nothing elsewhere,
    whether or not they lie across the end of the region; the receive
    buffer stays well formed, its queue is what follows the bytes read, and
    the transmit buffer is untouched. *)
Theorem readBytes_takes_prefix (mem : Memory) (usart : USART) (buf : Memory)
    (n : Z) :
  queue_wf (rxBuffer usart) ->
  0 <= n < 65536 ->
  let '(r, buf', usart') := readBytes mem usart buf n in
  let q := contents mem (rxBuffer usart) in
  r = Z.min n (fillLevel (rxBuffer usart)) /\
  to_list buf' 0 (Z.to_nat r) = firstn (Z.to_nat r) q /\
  (forall a, ~ 0 <= a < r -> buf' a = buf a) /\
  queue_wf (rxBuffer usart') /\
  contents mem (rxBuffer usart') = skipn (Z.to_nat r) q /\
  txBuffer usart' = txBuffer usart.
Proof.
  intros Hq Hn.
  pose proof (queue_wf_buf_ok _ Hq) as Hok.
  pose proof (readBytes_fields mem usart buf n Hok Hn) as HF.
  pose proof (readBytes_contents mem usart buf n Hok Hn) as HC.
  pose proof (readBytes_ok mem usart buf n Hok Hn) as HO.
  pose proof (readBytes_txBuffer mem usart buf n) as HT.
  destruct (readBytes mem usart buf n) as [[r buf'] usart'].
  cbv zeta in *. cbn [snd] in HT.
  destruct HF as (Hr & B & L & H & T & F & M & Hout).
  destruct HC as (_ & _ & HC). destruct HO as ((R1 & R2 & _) & _).
  destruct Hq as ((HL & Hb & Hreg) & (Hf & Hh & Ht) & Htail & Hm).
  assert (Hslot : forall j, 0 <= j -> r + j <= length (rxBuffer usart) ->
            slot (rxBuffer usart') j = slot (rxBuffer usart) (r + j)).
  { intros j Hj Hj'. unfold slot. rewrite H, B, L. unfold slot. zcases. }
  split; [exact Hr|]. split; [exact HC|]. split; [exact Hout|].
  split; [|split; [|exact HT]].
  - split; [exact R1|]. split; [exact R2|]. split; [|exact M].
    rewrite T, Htail, F, Hslot by lia. f_equal. lia.
  - apply (nth_ext _ _ 0 0).
    + rewrite length_skipn, !length_contents. lia.
    + intros j Hj. rewrite length_contents in Hj.
      rewrite nth_contents by exact Hj. rewrite nth_skipn.
      rewrite nth_contents by lia. rewrite Hslot by lia.
      f_equal. f_equal. lia.
Qed.

Lemma readBytes_takes_prefix_witness :
  let '(r, buf', usart') :=
    readBytes (fst (demo_rx [65; 66; 67])) (snd (demo_rx [65; 66; 67]))
              scratch 2 in
  r = 2 /\ to_list buf' 0 2 = [65; 66] /\
  contents (fst (demo_rx [65; 66; 67])) (rxBuffer usart') = [67].
Proof.
  assert (Hq : queue_wf (rxBuffer (snd (demo_rx [65; 66; 67])))) by by_eval.
  assert (Hn : 0 <= 2 < 65536) by lia.
  assert (Hf : fillLevel (rxBuffer (snd (demo_rx [65; 66; 67]))) = 3)
    by by_eval.
  assert (Hc : contents (fst (demo_rx [65; 66; 67]))
                        (rxBuffer (snd (demo_rx [65; 66; 67])))
               = [65; 66; 67]) by by_eval.
  pose proof (readBytes_takes_prefix (fst (demo_rx [65; 66; 67]))
                (snd (demo_rx [65; 66; 67])) scratch 2 Hq Hn) as H.
  destruct (readBytes _ _ _ _) as [[r buf'] usart'].
  cbv zeta in H. rewrite Hf, Hc in H.
  destruct H as (-> & Hl & _ & _ & Hrest & _).
  split; [reflexivity|]. split; [exact Hl|exact Hrest].
Defined.

(** ** The regions of [masterBuffer] *)

(** The bytes of a queue lie in the region of its buffer. *)
Lemma slot_in_region (c : USARTBuffer) (j : Z) :
  region_ok c -> ring_ok c -> 0 <= j < length c ->
  in_region c (slot c j).
Proof.
  intros (HL & Hb & Hr) (Hf & Hh & Ht) Hj. unfold in_region, slot. zcases.
Qed.

(** The queue of a buffer is the same in two memories that agree on its
    region. *)
Lemma contents_same_region (mem mem' : Memory) (c : USARTBuffer) :
  region_ok c -> ring_ok c ->
  (forall a, in_region c a -> mem' a = mem a) ->
  contents mem' c = contents mem c.
Proof.
  intros Hr Hg Hsame. unfold contents. apply map_ext_in.
  intros j Hj. apply in_seq in Hj. apply Hsame.
  apply slot_in_region; try assumption.
  destruct Hg as (Hf & _). lia.
Qed.

Lemma bufferPush_region (mem : Memory) (b : USARTBuffer) (d : byte) :
  buf_ok b ->
  exists mem' b',
    bufferPush mem b d = Some (mem', b') /\
    forall a, ~ in_region b a -> mem' a = mem a.
Proof.
  intros ((HL & Hb & Hr) & (Hf & Hh & Ht) & Hm). unfold bufferPush.
  rewrite (take_free _ Hm). eexists. eexists. split; [reflexivity|].
  intros a Ha. unfold in_region in Ha. unfold store. zcases.
Qed.

Lemma writeBytes_region (mem : Memory) (usart : USART) (bytes : list byte)
    (n : Z) :
  region_ok (txBuffer usart) -> ring_ok (txBuffer usart) ->
  0 <= n < 65536 ->
  forall a, ~ in_region (txBuffer usart) a ->
    snd (fst (writeBytes mem usart bytes n)) a = mem a.
Proof.
  intros (HL & Hb & Hr) (Hf & Hh & Ht) Hn a Ha. unfold in_region in Ha.
  unfold writeBytes. cbv zeta.
  set (tx := txBuffer usart) in *.
  destruct (n >? length tx) eqn:E; [reflexivity|].
  rewrite Z.gtb_ltb in E. apply Z.ltb_ge in E.
  destruct (xSemaphoreTake (mutex tx)); [|reflexivity].
  rewrite (u16_small (base tx + length tx - tail tx)) by lia.
  destruct (Z.leb_spec n (base tx + length tx - tail tx)) as [Hfit|Hwrap];
    rewrite Z.geb_leb;
    [rewrite (proj2 (Z.leb_le _ _) Hfit)
    |rewrite (proj2 (Z.leb_gt _ _) Hwrap)];
    cbn [fst snd]; unfold memcpy.
  - zcases.
  - rewrite (u16_small (n - _)) by lia. zcases.
Qed.

(** X3. The two buffers of a channel have at least one byte each, lie
    within the [uint16_t] offsets, keep [0 <= fillLevel <= length] and
    [head] and [tail] inside their region, and have their mutexes free.
    Then [writeBytes], for any [numBytes], writes [masterBuffer] inside the
    region of the transmit buffer only, and [bufferPush] into the receive
    buffer returns and writes inside the region of the receive buffer only:
    every offset outside keeps its byte, so the queue of any other buffer
    with a region of at least one byte that is disjoint from those of the
    channel is unchanged.  A buffer of length 0 is another matter:
    [bufferPush_zero_length_escapes] below. *)
Theorem writes_stay_in_region (mem : Memory) (usart : USART)
    (bytes : list byte) (n : Z) (d : byte) (c : USARTBuffer) :
  buf_ok (txBuffer usart) -> buf_ok (rxBuffer usart) ->
  0 <= n < 65536 ->
  region_ok c -> ring_ok c ->
  (forall a, in_region c a ->
     ~ in_region (txBuffer usart) a /\ ~ in_region (rxBuffer usart) a) ->
  (forall a, ~ in_region (txBuffer usart) a ->
     snd (fst (writeBytes mem usart bytes n)) a = mem a) /\
  contents (snd (fst (writeBytes mem usart bytes n))) c = contents mem c /\
  exists mem' rx',
    bufferPush mem (rxBuffer usart) d = Some (mem', rx') /\
    (forall a, ~ in_region (rxBuffer usart) a -> mem' a = mem a) /\
    contents mem' c = contents mem c.
Proof.
  intros (R1 & G1 & M1) Hrx Hn Rc Gc Hdisj.
  pose proof (writeBytes_region mem usart bytes n R1 G1 Hn) as Hw.
  split; [exact Hw|]. split.
  - apply contents_same_region; try assumption.
    intros a Ha. apply Hw. apply (Hdisj a Ha).
  - destruct (bufferPush_region mem _ d Hrx) as (mem' & rx' & E & Hp).
    exists mem', rx'. split; [exact E|]. split; [exact Hp|].
    apply contents_same_region; try assumption.
    intros a Ha. apply Hp. apply (Hdisj a Ha).
Qed.

Lemma writes_stay_in_region_witness :
  contents (snd (fst (writeBytes (fst (demo_rx [65; 66]))
                                 (snd (demo_rx [65; 66])) [1; 2; 3] 3)))
           (mkUSARTBuffer 16 8 16 16 0 0 false)
  = contents (fst (demo_rx [65; 66])) (mkUSARTBuffer 16 8 16 16 0 0 false).
Proof.
  assert (H1 : buf_ok (txBuffer (snd (demo_rx [65; 66])))) by by_eval.
  assert (H2 : buf_ok (rxBuffer (snd (demo_rx [65; 66])))) by by_eval.
  assert (H3 : region_ok (mkUSARTBuffer 16 8 16 16 0 0 false)) by by_eval.
  assert (H4 : ring_ok (mkUSARTBuffer 16 8 16 16 0 0 false)) by by_eval.
  assert (B1 : base (txBuffer (snd (demo_rx [65; 66]))) = 0) by by_eval.
  assert (L1 : length (txBuffer (snd (demo_rx [65; 66]))) = 8) by by_eval.
  assert (B2 : base (rxBuffer (snd (demo_rx [65; 66]))) = 8) by by_eval.
  assert (L2 : length (rxBuffer (snd (demo_rx [65; 66]))) = 8) by by_eval.
  refine (proj1 (proj2 (writes_stay_in_region (fst (demo_rx [65; 66]))
                          (snd (demo_rx [65; 66])) [1; 2; 3] 3 0
                          (mkUSARTBuffer 16 8 16 16 0 0 false)
                          H1 H2 _ H3 H4 _))).
  - lia.
  - intros a. unfold in_region. rewrite B1, L1, B2, L2.
    cbn [base length]. lia.
Defined.

(** A push into a buffer of length 0 stores the byte at [base], which is
    outside the empty region and belongs to the buffer allocated next: the
    queue 1, 2, 3 of that buffer becomes 99, 2, 3. *)
Example bufferPush_zero_length_escapes :
  let '(mem, b, c) := zero_length_demo in
  base b = 4 /\ length b = 0 /\ mutex b = false /\
  base c = 4 /\ length c = 4 /\ contents mem c = [1; 2; 3] /\
  match bufferPush mem b 99 with
  | Some (mem', b') => contents mem' c = [99; 2; 3] /\ fillLevel b' = 0
  | None => False
  end.
Proof. vm_compute. repeat split; reflexivity. Qed.

(** ** Lines *)

(** The scan stops at the first line ending, if it meets it before the end
    of the region. *)
Lemma scanLine_finds (mem : Memory) (rx : USARTBuffer) (k : nat) :
  forall n i p,
    (k < n)%nat ->
    (forall j, 0 <= j < Z.of_nat k -> mem (p + j) <> LF) ->
    mem (p + Z.of_nat k) = LF ->
    0 <= p -> p + Z.of_nat k < base rx + length rx ->
    base rx + length rx <= 65536 ->
    0 <= i -> i + Z.of_nat k < 65536 ->
    scanLine mem rx n i p = (true, i + Z.of_nat k, p + Z.of_nat k).
Proof.
  induction k as [|k IH]; intros n i p Hn Hno Hlf Hp Hend Hreg Hi Hik;
    (destruct n as [|n]; [lia|]); cbn [scanLine].
  - rewrite Z.add_0_r in Hlf. rewrite Hlf, Z.eqb_refl.
    rewrite !Z.add_0_r. reflexivity.
  - destruct (Z.eqb_spec LF (mem p)) as [E|E].
    + exfalso. apply (Hno 0); [lia|]. rewrite Z.add_0_r. symmetry. exact E.
    + destruct (Z.eqb_spec p (base rx + length rx)); [lia|].
      rewrite (u16_small (i + 1)) by lia.
      rewrite (u16_small (p + 1)) by lia.
      rewrite (IH n (i + 1) (p + 1)); try lia.
      * f_equal; [f_equal|]; lia.
      * intros j Hj. replace (p + 1 + j) with (p + (j + 1)) by lia.
        apply Hno. lia.
      * replace (p + 1 + Z.of_nat k) with (p + Z.of_nat (S k)) by lia.
        exact Hlf.
Qed.

(** What a queue that starts with a line and its line ending, and does not
    wrap before the line ending, looks like in [masterBuffer]. *)
Lemma line_in_memory (mem : Memory) (rx : USARTBuffer)
    (line rest : list byte) :
  buf_ok rx ->
  contents mem rx = line ++ LF :: rest ->
  ~ In LF line ->
  head rx + Z.of_nat (List.length line) < base rx + length rx ->
  (List.length line < Z.to_nat (fillLevel rx))%nat /\
  (forall j, (j < List.length line)%nat ->
     mem (head rx + Z.of_nat j) = nth j line 0) /\
  (forall j, 0 <= j < Z.of_nat (List.length line) ->
     mem (head rx + j) <> LF) /\
  mem (head rx + Z.of_nat (List.length line)) = LF.
Proof.
  intros ((HL & Hb & Hr) & (Hf & Hh & Ht) & Hm) Hc Hno Hend.
  assert (Hlen : (List.length line < Z.to_nat (fillLevel rx))%nat).
  { apply (f_equal (@List.length byte)) in Hc.
    rewrite length_contents, length_app in Hc. cbn [List.length] in Hc.
    lia. }
  assert (Hnth : forall j, (j <= List.length line)%nat ->
            mem (head rx + Z.of_nat j) = nth j (line ++ LF :: rest) 0).
  { intros j Hj. rewrite <- Hc, nth_contents by lia.
    unfold slot. f_equal. zcases. }
  split; [exact Hlen|]. split; [|split].
  - intros j Hj. rewrite Hnth by lia. apply app_nth1. exact Hj.
  - intros j Hj E. apply Hno.
    replace j with (Z.of_nat (Z.to_nat j)) in E by lia.
    rewrite Hnth in E by lia. rewrite app_nth1 in E by lia.
    rewrite <- E. apply nth_In. lia.
  - rewrite Hnth by lia. rewrite app_nth2 by lia.
    rewrite Nat.sub_diag. reflexivity.
Qed.

(** The copy of the first [i - 1] bytes of a line that does not wrap,
    followed by the NUL. *)
Lemma copyLine_prefix (mem : Memory) (rx : USARTBuffer) (buf : Memory)
    (line : list byte) (i bufPtr : Z) :
  bufPtr > head rx ->
  1 <= i <= Z.of_nat (List.length line) ->
  i < 65536 ->
  (forall j, (j < List.length line)%nat ->
     mem (head rx + Z.of_nat j) = nth j line 0) ->
  let '(r, buf') := copyLine mem rx buf i bufPtr in
  r = i - 1 /\
  to_list buf' 0 (Z.to_nat i) = firstn (Z.to_nat (i - 1)) line ++ [0] /\
  (forall a, ~ 0 <= a < i -> buf' a = buf a).
Proof.
  intros Hp Hi Hi' Hmem. unfold copyLine.
  replace (bufPtr >? head rx) with true
    by (symmetry; rewrite Z.gtb_ltb; apply Z.ltb_lt; lia).
  rewrite (u16_small (i - 1)) by lia.
  split; [reflexivity|]. split.
  - apply (nth_ext _ _ 0 0).
    + rewrite length_to_list, length_app, length_firstn. cbn [List.length].
      lia.
    + intros j Hj. rewrite length_to_list in Hj.
      rewrite nth_to_list by exact Hj. unfold store, memcpy.
      destruct (Z.eqb_spec (0 + Z.of_nat j) (i - 1)) as [E|E].
      * rewrite app_nth2 by (rewrite length_firstn; lia).
        rewrite length_firstn.
        replace (j - Nat.min (Z.to_nat (i - 1)) (List.length line))%nat
          with 0%nat by lia.
        reflexivity.
      * rewrite app_nth1 by (rewrite length_firstn; lia).
        rewrite nth_firstn.
        replace (j <? Z.to_nat (i - 1))%nat with true
          by (symmetry; apply Nat.ltb_lt; lia).
        zcases. rewrite <- Hmem by lia. f_equal. lia.
  - intros a Ha. unfold store, memcpy. zcases.
Qed.

Lemma set_mutex_same (b : USARTBuffer) :
  mutex b = false -> set_mutex b (xSemaphoreGive true) = b.
Proof. destruct b as [? ? ? ? ? ? m]. cbn. intros ->. reflexivity. Qed.

Lemma set_rxBuffer_same (u : USART) : set_rxBuffer u (rxBuffer u) = u.
Proof. destruct u. reflexivity. Qed.

(** X4. The receive buffer has its mutex free, a region of at least one
    byte within the [uint16_t] offsets, [0 <= fillLevel <= length] and
    [head] and [tail] inside the region.  When its queue starts with a
    non-empty line of [k] bytes and its line ending, and the line ending
    lies before the end of the region, [readLine] returns [k - 1], stores
    the first [k - 1] bytes of the line and a NUL (the last byte of the
    line is dropped), leaves the rest of the caller's buffer alone and
    leaves the channel as it was: nothing is taken out of the queue. *)
Theorem readLine_drops_last (mem : Memory) (usart : USART) (buf : Memory)
    (line rest : list byte) :
  let k := Z.of_nat (List.length line) in
  buf_ok (rxBuffer usart) ->
  contents mem (rxBuffer usart) = line ++ LF :: rest ->
  ~ In LF line ->
  line <> [] ->
  head (rxBuffer usart) + k < base (rxBuffer usart) + length (rxBuffer usart) ->
  let '(r, buf', usart') := readLine mem usart buf in
  r = k - 1 /\
  to_list buf' 0 (List.length line)
  = firstn (List.length line - 1) line ++ [0] /\
  (forall a, ~ 0 <= a < k -> buf' a = buf a) /\
  usart' = usart.
Proof.
  intros k Hok Hc Hno Hne Hend. subst k.
  pose proof (line_in_memory mem _ line rest Hok Hc Hno Hend)
    as (Hlen & Hmem & Hnolf & Hlf).
  pose proof Hok as ((HL & Hb & Hr) & (Hf & Hh & Ht) & Hm).
  assert (Hk : 1 <= Z.of_nat (List.length line))
    by (destruct line; [congruence|cbn [List.length]; lia]).
  unfold readLine. cbv zeta. rewrite (take_free _ Hm).
  replace (fillLevel (rxBuffer usart) =? 0) with false
    by (symmetry; apply Z.eqb_neq; lia).
  cbn [negb].
  rewrite (scanLine_finds mem (rxBuffer usart) (List.length line)
             (Z.to_nat (fillLevel (rxBuffer usart))) 0
             (head (rxBuffer usart))) by (assumption || lia).
  pose proof (copyLine_prefix mem (rxBuffer usart) buf line
                (0 + Z.of_nat (List.length line))
                (head (rxBuffer usart) + Z.of_nat (List.length line))
                ltac:(lia) ltac:(lia) ltac:(lia) Hmem) as Hcopy.
  destruct (copyLine _ _ _ _ _) as [r buf'].
  destruct Hcopy as (-> & Hl & Hout).
  rewrite set_mutex_same by exact Hm. rewrite set_rxBuffer_same.
  split; [lia|]. split; [|split; [|reflexivity]].
  - replace (Z.to_nat (0 + Z.of_nat (List.length line)))
      with (List.length line) in Hl by lia.
    replace (Z.to_nat (0 + Z.of_nat (List.length line) - 1))
      with (List.length line - 1)%nat in Hl by lia.
    exact Hl.
  - intros a Ha. apply Hout. lia.
Qed.

Lemma readLine_drops_last_witness :
  let '(r, buf', usart') :=
    readLine (fst (demo_rx [65; 66; 10; 67; 68]))
             (snd (demo_rx [65; 66; 10; 67; 68])) scratch in
  r = 1 /\ to_list buf' 0 2 = [65; 0] /\
  usart' = snd (demo_rx [65; 66; 10; 67; 68]).
Proof.
  assert (H1 : buf_ok (rxBuffer (snd (demo_rx [65; 66; 10; 67; 68]))))
    by by_eval.
  assert (H2 : contents (fst (demo_rx [65; 66; 10; 67; 68]))
                        (rxBuffer (snd (demo_rx [65; 66; 10; 67; 68])))
               = [65; 66] ++ LF :: [67; 68]) by by_eval.
  assert (H3 : ~ In LF [65; 66])
    by (intros [C|[C|[]]]; discriminate C).
  assert (H4 : [65; 66] <> []) by discriminate.
  assert (H5 : head (rxBuffer (snd (demo_rx [65; 66; 10; 67; 68])))
               + Z.of_nat (List.length [65; 66])
               < base (rxBuffer (snd (demo_rx [65; 66; 10; 67; 68])))
                 + length (rxBuffer (snd (demo_rx [65; 66; 10; 67; 68]))))
    by by_eval.
  pose proof (readLine_drops_last (fst (demo_rx [65; 66; 10; 67; 68]))
                (snd (demo_rx [65; 66; 10; 67; 68])) scratch
                [65; 66] [67; 68] H1 H2 H3 H4 H5) as H.
  destruct (readLine _ _ _) as [[r buf'] usart'].
  destruct H as (-> & Hl & _ & ->).
  split; [reflexivity|]. split; [exact Hl|reflexivity].
Defined.

(** X5. The receive buffer has its mutex free, a region of at least one
    byte within the [uint16_t] offsets, [0 <= fillLevel <= length] and
    [head] and [tail] inside the region.  When its queue starts with a
    non-empty line of [k] bytes and its line ending, the line ending lies
    before the end of the region and [0 <= maxLen < 65535],
    [readLineTruncate] returns [min (k - 1) maxLen], stores that many bytes
    of the line and a NUL, and leaves the channel as it was: the result
    never exceeds [maxLen], and neither the excess nor the line is taken
    out of the queue. *)
Theorem readLineTruncate_caps (mem : Memory) (usart : USART) (buf : Memory)
    (maxLen : Z) (line rest : list byte) :
  let k := Z.of_nat (List.length line) in
  let r := Z.min (k - 1) maxLen in
  buf_ok (rxBuffer usart) ->
  contents mem (rxBuffer usart) = line ++ LF :: rest ->
  ~ In LF line ->
  line <> [] ->
  head (rxBuffer usart) + k < base (rxBuffer usart) + length (rxBuffer usart) ->
  0 <= maxLen < 65535 ->
  let '(r', buf', usart') := readLineTruncate mem usart buf maxLen in
  r' = r /\
  to_list buf' 0 (Z.to_nat (r + 1)) = firstn (Z.to_nat r) line ++ [0] /\
  (forall a, ~ 0 <= a <= r -> buf' a = buf a) /\
  usart' = usart.
Proof.
  intros k r Hok Hc Hno Hne Hend Hmax. subst k r.
  pose proof (line_in_memory mem _ line rest Hok Hc Hno Hend)
    as (Hlen & Hmem & Hnolf & Hlf).
  pose proof Hok as ((HL & Hb & Hr) & (Hf & Hh & Ht) & Hm).
  assert (Hk : 1 <= Z.of_nat (List.length line))
    by (destruct line; [congruence|cbn [List.length]; lia]).
  unfold readLineTruncate. cbv zeta. rewrite (take_free _ Hm).
  replace (fillLevel (rxBuffer usart) =? 0) with false
    by (symmetry; apply Z.eqb_neq; lia).
  cbn [negb].
  rewrite (scanLine_finds mem (rxBuffer usart) (List.length line)
             (Z.to_nat (fillLevel (rxBuffer usart))) 0
             (head (rxBuffer usart))) by (assumption || lia).
  rewrite Z.add_0_l.
  set (k := Z.of_nat (List.length line)) in *.
  set (i := if (k >? 0) && (k - 1 >? maxLen) then u16 (maxLen + 1) else k).
  assert (Hi : i = Z.min (k - 1) maxLen + 1).
  { unfold i. rewrite (u16_small (maxLen + 1)) by lia. zcases. }
  pose proof (copyLine_prefix mem (rxBuffer usart) buf line i
                (head (rxBuffer usart) + k)
                ltac:(lia) ltac:(lia) ltac:(lia) Hmem) as Hcopy.
  destruct (copyLine _ _ _ _ _) as [r buf'].
  destruct Hcopy as (-> & Hl & Hout).
  rewrite set_mutex_same by exact Hm. rewrite set_rxBuffer_same.
  split; [lia|]. split; [|split; [|reflexivity]].
  - rewrite Hi in Hl.
    replace (Z.min (k - 1) maxLen + 1 - 1) with (Z.min (k - 1) maxLen)
      in Hl by lia.
    exact Hl.
  - intros a Ha. apply Hout. lia.
Qed.

Lemma readLineTruncate_caps_witness :
  let '(r, buf', usart') :=
    readLineTruncate (fst (demo_rx [65; 66; 67; 68; 69; 10]))
                     (snd (demo_rx [65; 66; 67; 68; 69; 10])) scratch 1 in
  r = 1 /\ to_list buf' 0 2 = [65; 0] /\
  usart' = snd (demo_rx [65; 66; 67; 68; 69; 10]).
Proof.
  assert (H1 : buf_ok (rxBuffer (snd (demo_rx [65; 66; 67; 68; 69; 10]))))
    by by_eval.
  assert (H2 : contents (fst (demo_rx [65; 66; 67; 68; 69; 10]))
                        (rxBuffer (snd (demo_rx [65; 66; 67; 68; 69; 10])))
               = [65; 66; 67; 68; 69] ++ LF :: []) by by_eval.
  assert (H3 : ~ In LF [65; 66; 67; 68; 69])
    by (intros [C|[C|[C|[C|[C|[]]]]]]; discriminate C).
  assert (H4 : [65; 66; 67; 68; 69] <> []) by discriminate.
  assert (H5 : head (rxBuffer (snd (demo_rx [65; 66; 67; 68; 69; 10])))
               + Z.of_nat (List.length [65; 66; 67; 68; 69])
               < base (rxBuffer (snd (demo_rx [65; 66; 67; 68; 69; 10])))
                 + length (rxBuffer (snd (demo_rx [65; 66; 67; 68; 69; 10]))))
    by by_eval.
  assert (H6 : 0 <= 1 < 65535) by lia.
  pose proof (readLineTruncate_caps (fst (demo_rx [65; 66; 67; 68; 69; 10]))
                (snd (demo_rx [65; 66; 67; 68; 69; 10])) scratch 1
                [65; 66; 67; 68; 69] [] H1 H2 H3 H4 H5 H6) as H.
  destruct (readLineTruncate _ _ _ _) as [[r buf'] usart'].
  destruct H as (-> & Hl & _ & ->).
  split; [reflexivity|]. split; [exact Hl|reflexivity].
Defined.

(** X6. When the oldest byte of a non-empty receive buffer is a line
    ending (an empty line), [readLine] and [readLineTruncate] return 65535,
    not 0, and store a NUL at offset -1 of the caller's buffer; the channel
    is unchanged. *)
Theorem readLine_empty_line (mem : Memory) (usart : USART) (buf : Memory)
    (maxLen : Z) :
  mutex (rxBuffer usart) = false ->
  1 <= fillLevel (rxBuffer usart) ->
  mem (head (rxBuffer usart)) = LF ->
  readLine mem usart buf = (65535, store buf (-1) 0, usart) /\
  readLineTruncate mem usart buf maxLen = (65535, store buf (-1) 0, usart).
Proof.
  intros Hm Hf Hlf.
  assert (Hn : exists n, Z.to_nat (fillLevel (rxBuffer usart)) = S n)
    by (exists (Z.to_nat (fillLevel (rxBuffer usart)) - 1)%nat; lia).
  destruct Hn as (n & Hn).
  unfold readLine, readLineTruncate. cbv zeta. rewrite (take_free _ Hm).
  replace (fillLevel (rxBuffer usart) =? 0) with false
    by (symmetry; apply Z.eqb_neq; lia).
  cbn [negb]. rewrite Hn. cbn [scanLine]. rewrite Hlf, Z.eqb_refl.
  cbn [andb Z.gtb Z.compare]. unfold copyLine.
  rewrite Z.gtb_ltb, Z.ltb_irrefl.
  rewrite set_mutex_same by exact Hm. rewrite set_rxBuffer_same.
  split; reflexivity.
Qed.

Lemma readLine_empty_line_witness :
  fst (fst (readLine (fst (demo_rx [10; 65])) (snd (demo_rx [10; 65]))
                     scratch)) = 65535.
Proof.
  assert (H1 : mutex (rxBuffer (snd (demo_rx [10; 65]))) = false) by by_eval.
  assert (H2 : 1 <= fillLevel (rxBuffer (snd (demo_rx [10; 65]))))
    by by_eval.
  assert (H3 : fst (demo_rx [10; 65])
                   (head (rxBuffer (snd (demo_rx [10; 65])))) = LF)
    by by_eval.
  rewrite (proj1 (readLine_empty_line (fst (demo_rx [10; 65]))
                    (snd (demo_rx [10; 65])) scratch 0 H1 H2 H3)).
  reflexivity.
Defined.

(** With the mutex of the receive buffer taken, no call on the receive side
    does anything, and a push into the receive buffer never returns. *)
Lemma rx_mutex_taken (mem : Memory) (usart : USART) (buf : Memory)
    (n maxLen : Z) (d : byte) :
  mutex (rxBuffer usart) = true ->
  readBytes mem usart buf n = (0, buf, usart) /\
  readLine mem usart buf = (0, buf, usart) /\
  readLineTruncate mem usart buf maxLen = (0, buf, usart) /\
  rxBytesAvailable usart = (0, usart) /\
  bufferPush mem (rxBuffer usart) d = None.
Proof.
  intros Hm.
  unfold readBytes, readLine, readLineTruncate, rxBytesAvailable, bufferPush.
  cbv zeta. rewrite (take_held _ Hm). repeat split; reflexivity.
Qed.

(** X7. [readLine] and [readLineTruncate] on an empty receive buffer
    return 0 without giving the mutex back.  From then on [readBytes],
    [readLine], [readLineTruncate] and [rxBytesAvailable] return 0 and
    change nothing, [bufferPush] into the receive buffer never returns, and
    so the pass of [mainLoop] that finds a byte received never returns
    either. *)
Theorem readLine_empty_keeps_mutex (mem : Memory) (usart : USART)
    (buf : Memory) (maxLen : Z) :
  mutex (rxBuffer usart) = false ->
  fillLevel (rxBuffer usart) = 0 ->
  let usart' := snd (readLine mem usart buf) in
  readLine mem usart buf = (0, buf, usart') /\
  readLineTruncate mem usart buf maxLen = (0, buf, usart') /\
  mutex (rxBuffer usart') = true /\
  forall mem2 buf2 n maxLen2 d hw,
    readBytes mem2 usart' buf2 n = (0, buf2, usart') /\
    readLine mem2 usart' buf2 = (0, buf2, usart') /\
    readLineTruncate mem2 usart' buf2 maxLen2 = (0, buf2, usart') /\
    rxBytesAvailable usart' = (0, usart') /\
    bufferPush mem2 (rxBuffer usart') d = None /\
    (enabled usart = true -> FLAG_RXNE hw = true ->
     serviceUsart mem2 usart' hw = None).
Proof.
  intros Hm Hf.
  assert (E1 : readLine mem usart buf
               = (0, buf, set_rxBuffer usart (set_mutex (rxBuffer usart) true))).
  { unfold readLine. cbv zeta. rewrite (take_free _ Hm), Hf. reflexivity. }
  assert (E2 : readLineTruncate mem usart buf maxLen
               = (0, buf, set_rxBuffer usart (set_mutex (rxBuffer usart) true))).
  { unfold readLineTruncate. cbv zeta. rewrite (take_free _ Hm), Hf.
    reflexivity. }
  cbv zeta. rewrite E1, E2. cbn [snd].
  set (u := set_rxBuffer usart (set_mutex (rxBuffer usart) true)).
  assert (Hm' : mutex (rxBuffer u) = true) by reflexivity.
  split; [reflexivity|]. split; [reflexivity|]. split; [exact Hm'|].
  intros mem2 buf2 n maxLen2 d hw.
  destruct (rx_mutex_taken mem2 u buf2 n maxLen2 d Hm')
    as (A & B & C & D & E).
  repeat (split; [assumption|]).
  intros Hen Hrx. unfold serviceUsart.
  replace (enabled u) with true by (symmetry; exact Hen).
  rewrite Hrx.
  assert (Hpush : forall u1, rxBuffer u1 = rxBuffer u ->
            bufferPush mem2 (rxBuffer u1) (DR hw mod 256) = None).
  { intros u1 ->. unfold bufferPush. rewrite (take_held _ Hm').
    reflexivity. }
  destruct (FLAG_TXE hw).
  - destruct (bufferPop mem2 (txBuffer u)) as [[[|] [data|]] tx];
      cbv zeta; rewrite Hpush; reflexivity.
  - cbv zeta. rewrite Hpush; reflexivity.
Qed.

Lemma readLine_empty_keeps_mutex_witness :
  mutex (rxBuffer (snd (readLine masterBuffer0 (channel 8 8) scratch)))
  = true.
Proof.
  assert (H1 : mutex (rxBuffer (channel 8 8)) = false) by by_eval.
  assert (H2 : fillLevel (rxBuffer (channel 8 8)) = 0) by by_eval.
  exact (proj1 (proj2 (proj2 (readLine_empty_keeps_mutex masterBuffer0
                                (channel 8 8) scratch 0 H1 H2)))).
Defined.

(** X8. A line of fewer than two characters is never queued: on a
    transmit buffer shorter than 65535 bytes, [writeLine] of the empty
    string or of a single character returns 0, pushes no line ending, and
    leaves [masterBuffer] and [head], [tail] and [fillLevel] of the
    transmit buffer as they were, whatever the state of the mutex. *)
Theorem writeLine_short_line (mem : Memory) (usart : USART)
    (line : list byte) :
  region_ok (txBuffer usart) -> ring_ok (txBuffer usart) ->
  length (txBuffer usart) < 65535 ->
  strlen line <= 1 ->
  exists mem' usart',
    writeLine mem usart line = Some (0, mem', usart') /\
    (forall a, mem' a = mem a) /\
    head (txBuffer usart') = head (txBuffer usart) /\
    tail (txBuffer usart') = tail (txBuffer usart) /\
    fillLevel (txBuffer usart') = fillLevel (txBuffer usart) /\
    rxBuffer usart' = rxBuffer usart.
Proof.
  intros (HL & Hb & Hr) (Hf & Hh & Ht) HL' Hk.
  pose proof (strlen_range line) as Hs.
  unfold writeLine.
  replace (strlen line >? length (txBuffer usart)) with false
    by (symmetry; rewrite Z.gtb_ltb; apply Z.ltb_ge; lia).
  assert (Hcase : strlen line = 0 \/ strlen line = 1) by lia.
  destruct Hcase as [E|E]; rewrite E.
  - change (u16 (0 - 1)) with 65535. unfold writeBytes. cbv zeta.
    replace (65535 >? length (txBuffer usart)) with true
      by (symmetry; rewrite Z.gtb_ltb; apply Z.ltb_lt; lia).
    cbn [Z.eqb negb]. exists mem, usart. repeat split; reflexivity.
  - change (u16 (1 - 1)) with 0. unfold writeBytes. cbv zeta.
    set (tx := txBuffer usart) in *.
    replace (0 >? length tx) with false
      by (symmetry; rewrite Z.gtb_ltb; apply Z.ltb_ge; lia).
    destruct (xSemaphoreTake (mutex tx)).
    + rewrite (u16_small (base tx + length tx - tail tx)) by lia.
      replace (base tx + length tx - tail tx >=? 0) with true
        by (symmetry; rewrite Z.geb_leb; apply Z.leb_le; lia).
      replace (0 =? base tx + length tx - tail tx) with false
        by (symmetry; apply Z.eqb_neq; lia).
      cbn [Z.eqb negb]. eexists. eexists. split; [reflexivity|].
      cbn [txBuffer rxBuffer head tail fillLevel].
      rewrite !Z.add_0_r. rewrite (u16_small (tail tx)) by lia.
      rewrite (u16_small (fillLevel tx)) by lia.
      replace (fillLevel tx <=? length tx) with true
        by (symmetry; apply Z.leb_le; lia).
      repeat split; try reflexivity.
      intros a. unfold memcpy. zcases.
    + cbn [Z.eqb negb]. exists mem, usart. repeat split; reflexivity.
Qed.

Lemma writeLine_short_line_witness :
  exists mem' usart',
    writeLine masterBuffer0 (channel 8 8) [65] = Some (0, mem', usart') /\
    fillLevel (txBuffer usart') = fillLevel (txBuffer (channel 8 8)).
Proof.
  assert (H1 : region_ok (txBuffer (channel 8 8))) by by_eval.
  assert (H2 : ring_ok (txBuffer (channel 8 8))) by by_eval.
  assert (H3 : length (txBuffer (channel 8 8)) < 65535) by by_eval.
  assert (H4 : strlen [65] <= 1) by by_eval.
  destruct (writeLine_short_line masterBuffer0 (channel 8 8) [65]
              H1 H2 H3 H4) as (mem' & usart' & E & _ & _ & _ & F & _).
  exists mem', usart'. split; [exact E|exact F].
Defined.

(** ** [FS_STM32F4xxUSART_Init] *)

(** What a successful [initUsart] allocates. *)
Lemma initUsart_regions (M allocated : Z) (prev : USART)
    (periph : USART_TypeDef) (txSize rxSize : Z) (usart : USART)
    (allocated' : Z) :
  initUsart M allocated prev periph txSize rxSize = (true, usart, allocated') ->
  M <= 65535 -> 0 <= allocated -> 0 <= txSize -> 0 <= rxSize ->
  base (txBuffer usart) = allocated /\
  length (txBuffer usart) = txSize /\
  base (rxBuffer usart) = allocated + txSize /\
  length (rxBuffer usart) = rxSize /\
  allocated' = allocated + txSize + rxSize /\
  allocated' <= M /\
  enabled usart = true.
Proof.
  unfold initUsart. destruct (_ >? _) eqn:C; [discriminate|].
  rewrite Z.gtb_ltb in C. apply Z.ltb_ge in C.
  cbn [bufferInit length]. intros E HM Ha Ht Hr. injection E as <- <-.
  cbn [txBuffer rxBuffer base length enabled].
  rewrite (u16_small txSize) by lia. rewrite (u16_small rxSize) by lia.
  rewrite (u16_small (allocated + txSize)) by lia.
  rewrite (u16_small (allocated + txSize + rxSize)) by lia.
  repeat split; lia.
Qed.

(** Stacked regions lie between the two offsets. *)
Lemma stacked_bounds (rs : list (Z * Z)) :
  forall a a',
    stacked a rs a' ->
    a <= a' /\
    forall r, In r rs -> a <= fst r /\ 0 <= snd r /\ fst r + snd r <= a'.
Proof.
  induction rs as [|[b l] rs IH]; intros a a' H; cbn in H.
  - subst. split; [lia|]. intros r [].
  - destruct H as (-> & Hl & H). destruct (IH _ _ H) as (Ha & Hin).
    split; [lia|]. intros r [<-|Hr]; cbn [fst snd].
    + lia.
    + specialize (Hin r Hr). lia.
Qed.

(** Stacked regions do not overlap: an earlier one ends before a later one
    starts. *)
Lemma stacked_apart (rs : list (Z * Z)) :
  forall a a' i j,
    stacked a rs a' ->
    (i < j < List.length rs)%nat ->
    fst (nth i rs (0, 0)) + snd (nth i rs (0, 0)) <= fst (nth j rs (0, 0)).
Proof.
  induction rs as [|[b l] rs IH]; intros a a' i j H Hij; cbn in H.
  - cbn in Hij. lia.
  - destruct H as (-> & Hl & H). cbn [List.length] in Hij.
    destruct j as [|j]; [lia|]. destruct i as [|i]; cbn [nth fst snd].
    + destruct (stacked_bounds _ _ _ H) as (_ & Hin).
      apply (Hin (nth j rs (0, 0))). apply nth_In. lia.
    + apply (IH _ _ i j H). lia.
Qed.

Lemma Init_stacked (M : Z) (usartList : list USART) :
  forall (inits : list PeriphInitStruct) (allocated : Z)
         (usartList' : list USART) (allocated' : Z),
    M <= 65535 -> 0 <= allocated <= M ->
    Forall (fun i => 0 <= txBufferSizeBytes i /\ 0 <= rxBufferSizeBytes i)
           inits ->
    FS_STM32F4xxUSART_Init M allocated usartList inits
    = (true, usartList', allocated') ->
    stacked allocated (initialised_regions usartList' inits) allocated' /\
    allocated' <= M /\
    List.length usartList' = List.length usartList.
Proof.
  induction usartList as [|u us IH];
    intros inits a us' a' HM Ha Hsz E.
  - cbn in E. injection E as <- <-. cbn. repeat split; lia.
  - destruct inits as [|i rest].
    + cbn in E. injection E as <- <-. cbn. repeat split; lia.
    + cbn [FS_STM32F4xxUSART_Init] in E.
      inversion Hsz as [|? ? (Ht & Hr) Hsz']; subst.
      destruct (initialise i) eqn:Ei.
      * destruct (initUsart M a u (init_peripheral i) (txBufferSizeBytes i)
                    (rxBufferSizeBytes i)) as [[ok u1] a1] eqn:Eu.
        destruct ok; [|discriminate].
        destruct (initUsart_regions _ _ _ _ _ _ _ _ Eu HM ltac:(lia) Ht Hr)
          as (B1 & L1 & B2 & L2 & A1 & A1' & _).
        destruct (FS_STM32F4xxUSART_Init M a1 us rest)
          as [[ok2 us2] a2] eqn:Er.
        injection E as -> <- <-.
        destruct (IH rest a1 us2 a2 HM ltac:(lia) Hsz' Er)
          as (S2 & A2 & Len).
        cbn [initialised_regions List.length]. rewrite Ei.
        split; [|split; [exact A2|lia]].
        cbn [app stacked]. rewrite B1, L1, B2, L2.
        repeat split; try lia.
        replace (a + txBufferSizeBytes i + rxBufferSizeBytes i) with a1
          by lia.
        exact S2.
      * destruct (FS_STM32F4xxUSART_Init M a us rest)
          as [[ok2 us2] a2] eqn:Er.
        injection E as -> <- <-.
        destruct (IH rest a us2 a2 HM Ha Hsz' Er) as (S2 & A2 & Len).
        cbn [initialised_regions List.length]. rewrite Ei.
        cbn [app]. split; [exact S2|]. split; [exact A2|lia].
Qed.

(** X9. When [FS_STM32F4xxUSART_Init] succeeds from an empty master buffer
    of at most 65535 bytes, the regions of the buffers of the entries it
    initialised follow one another from offset 0 to the allocation cursor
    without gap: every region lies inside the master buffer and no two of
    them overlap. *)
Theorem Init_regions_disjoint (M : Z) (usartList : list USART)
    (inits : list PeriphInitStruct) (usartList' : list USART)
    (allocated' : Z) :
  M <= 65535 -> 0 <= M ->
  Forall (fun i => 0 <= txBufferSizeBytes i /\ 0 <= rxBufferSizeBytes i)
         inits ->
  FS_STM32F4xxUSART_Init M 0 usartList inits = (true, usartList', allocated') ->
  let regions := initialised_regions usartList' inits in
  stacked 0 regions allocated' /\
  allocated' <= M /\
  (forall r, In r regions -> 0 <= fst r /\ fst r + snd r <= M) /\
  (forall i j, (i < j < List.length regions)%nat ->
     fst (nth i regions (0, 0)) + snd (nth i regions (0, 0))
     <= fst (nth j regions (0, 0))).
Proof.
  intros HM HM0 Hsz E.
  destruct (Init_stacked M usartList inits 0 usartList' allocated' HM
              ltac:(lia) Hsz E) as (S & A & _).
  cbv zeta. split; [exact S|]. split; [exact A|]. split.
  - intros r Hr. destruct (stacked_bounds _ _ _ S) as (_ & Hin).
    specialize (Hin r Hr). lia.
  - intros i j Hij. exact (stacked_apart _ _ _ i j S Hij).
Qed.

Lemma Init_regions_disjoint_witness :
  initialised_regions
    (snd (fst (FS_STM32F4xxUSART_Init 1024 0 (repeat usart0 6)
                 [mkPeriphInit true (mkPeripheral false false) 16 32;
                  mkPeriphInit false (mkPeripheral false false) 0 0;
                  mkPeriphInit true (mkPeripheral false false) 8 0;
                  mkPeriphInit false (mkPeripheral false false) 0 0;
                  mkPeriphInit false (mkPeripheral false false) 0 0;
                  mkPeriphInit true (mkPeripheral false false) 64 64])))
    [mkPeriphInit true (mkPeripheral false false) 16 32;
     mkPeriphInit false (mkPeripheral false false) 0 0;
     mkPeriphInit true (mkPeripheral false false) 8 0;
     mkPeriphInit false (mkPeripheral false false) 0 0;
     mkPeriphInit false (mkPeripheral false false) 0 0;
     mkPeriphInit true (mkPeripheral false false) 64 64]
  = [(0, 16); (16, 32); (48, 8); (56, 0); (56, 64); (120, 64)] /\
  stacked 0 [(0, 16); (16, 32); (48, 8); (56, 0); (56, 64); (120, 64)] 184.
Proof.
  set (inits := [mkPeriphInit true (mkPeripheral false false) 16 32;
                 mkPeriphInit false (mkPeripheral false false) 0 0;
                 mkPeriphInit true (mkPeripheral false false) 8 0;
                 mkPeriphInit false (mkPeripheral false false) 0 0;
                 mkPeriphInit false (mkPeripheral false false) 0 0;
                 mkPeriphInit true (mkPeripheral false false) 64 64]).
  assert (Hsz : Forall (fun i => 0 <= txBufferSizeBytes i
                                 /\ 0 <= rxBufferSizeBytes i) inits)
    by (repeat constructor; discriminate).
  assert (E : FS_STM32F4xxUSART_Init 1024 0 (repeat usart0 6) inits
              = (true,
                 snd (fst (FS_STM32F4xxUSART_Init 1024 0 (repeat usart0 6)
                             inits)),
                 184)) by (vm_compute; reflexivity).
  assert (R : initialised_regions
                (snd (fst (FS_STM32F4xxUSART_Init 1024 0 (repeat usart0 6)
                             inits))) inits
              = [(0, 16); (16, 32); (48, 8); (56, 0); (56, 64); (120, 64)])
    by (vm_compute; reflexivity).
  pose proof (Init_regions_disjoint 1024 (repeat usart0 6) inits _ 184
                ltac:(lia) ltac:(lia) Hsz E) as H.
  cbv zeta in H. rewrite R in H.
  split; [reflexivity|exact (proj1 H)].
Defined.

(** X15. [FS_STM32F4xxUSART_Init] keeps the length of [usartList] and
    leaves alone every entry it was not asked to initialise; and when it
    fails, there is an entry it was asked to initialise that it left as it
    was together with all the entries after it: the first request that
    does not fit ends the initialisation. *)
Theorem Init_leaves_unrequested (M : Z) (usartList : list USART) :
  forall (inits : list PeriphInitStruct) (allocated : Z),
    let '(success, usartList', allocated') :=
      FS_STM32F4xxUSART_Init M allocated usartList inits in
    List.length usartList' = List.length usartList /\
    (forall k i,
       nth_error inits k = Some i -> initialise i = false ->
       nth_error usartList' k = nth_error usartList k) /\
    (forall k, (List.length inits <= k)%nat ->
       nth_error usartList' k = nth_error usartList k) /\
    (success = false -> exists k i,
       nth_error inits k = Some i /\ initialise i = true /\
       nth_error usartList' k = nth_error usartList k /\
       (forall j, (k <= j)%nat ->
          nth_error usartList' j = nth_error usartList j)).
Proof.
  induction usartList as [|u us IH]; intros inits a.
  - cbn. repeat split; try reflexivity. discriminate.
  - destruct inits as [|i rest].
    + cbn. repeat split; try reflexivity. discriminate.
    + cbn [FS_STM32F4xxUSART_Init].
      destruct (initialise i) eqn:Ei.
      * destruct (initUsart M a u (init_peripheral i) (txBufferSizeBytes i)
                    (rxBufferSizeBytes i)) as [[ok u1] a1] eqn:Eu.
        destruct ok.
        -- specialize (IH rest a1).
           destruct (FS_STM32F4xxUSART_Init M a1 us rest)
             as [[ok2 us2] a2].
           destruct IH as (Len & Hun & Hout & Hfail).
           split; [cbn [List.length]; lia|]. split; [|split].
           ++ intros [|k] j Hj Hf; cbn [nth_error] in *.
              ** injection Hj as <-. congruence.
              ** exact (Hun k j Hj Hf).
           ++ intros [|k] Hk; cbn [List.length nth_error] in *; [lia|].
              apply Hout. lia.
           ++ intros Hs. destruct (Hfail Hs) as (k & j & Hj & Hjt & Hk & Hr).
              exists (S k), j. cbn [nth_error].
              repeat split; try assumption.
              intros [|j'] Hj'; [lia|]. cbn [nth_error]. apply Hr. lia.
        -- split; [reflexivity|]. split; [reflexivity|].
           split; [reflexivity|].
           intros _. exists 0%nat, i. cbn [nth_error]. auto.
      * specialize (IH rest a).
        destruct (FS_STM32F4xxUSART_Init M a us rest) as [[ok2 us2] a2].
        destruct IH as (Len & Hun & Hout & Hfail).
        split; [cbn [List.length]; lia|]. split; [|split].
        -- intros [|k] j Hj Hf; cbn [nth_error] in *; [reflexivity|].
           exact (Hun k j Hj Hf).
        -- intros [|k] Hk; cbn [List.length nth_error] in *; [lia|].
           apply Hout. lia.
        -- intros Hs. destruct (Hfail Hs) as (k & j & Hj & Hjt & Hk & Hr).
           exists (S k), j. cbn [nth_error].
           repeat split; try assumption.
           intros [|j'] Hj'; [lia|]. cbn [nth_error]. apply Hr. lia.
Qed.

Lemma Init_leaves_unrequested_witness :
  let '(success, usartList', _) :=
    FS_STM32F4xxUSART_Init 64 0 (repeat usart0 3)
      [mkPeriphInit true (mkPeripheral false false) 16 16;
       mkPeriphInit false (mkPeripheral false false) 0 0;
       mkPeriphInit true (mkPeripheral false false) 32 32] in
  success = false /\ List.length usartList' = 3%nat /\
  nth_error usartList' 1 = Some usart0.
Proof.
  pose proof (Init_leaves_unrequested 64 (repeat usart0 3)
                [mkPeriphInit true (mkPeripheral false false) 16 16;
                 mkPeriphInit false (mkPeripheral false false) 0 0;
                 mkPeriphInit true (mkPeripheral false false) 32 32] 0)
    as H.
  assert (S : fst (fst (FS_STM32F4xxUSART_Init 64 0 (repeat usart0 3)
                [mkPeriphInit true (mkPeripheral false false) 16 16;
                 mkPeriphInit false (mkPeripheral false false) 0 0;
                 mkPeriphInit true (mkPeripheral false false) 32 32]))
              = false) by (vm_compute; reflexivity).
  destruct (FS_STM32F4xxUSART_Init _ _ _ _) as [[success us'] a'] eqn:E.
  destruct H as (Len & Hun & _).
  split.
  - exact S.
  - split; [exact Len|].
    exact (Hun 1%nat (mkPeriphInit false (mkPeripheral false false) 0 0)
               eq_refl eq_refl).
Defined.

(** ** [mainLoop] *)

(** [bufferPop] hands a byte over exactly when it reports success. *)
Lemma bufferPop_cases (mem : Memory) (b : USARTBuffer) :
  (exists d b', bufferPop mem b = (true, Some d, b')) \/
  (exists b', bufferPop mem b = (false, None, b')).
Proof.
  unfold bufferPop. destruct (xSemaphoreTake (mutex b)).
  - destruct (negb (fillLevel b =? 0)).
    + left. eexists. eexists. reflexivity.
    + right. eexists. reflexivity.
  - right. eexists. reflexivity.
Qed.







(** X12. [mainLoop] never switches the transmit interrupt off while the
    transmit register is empty: if the interrupt is enabled, it is still
    enabled after any number of passes over the channel that find the
    register empty, also when the transmit buffer is empty, in which case
    nothing is sent. *)
Theorem txe_interrupt_stays_enabled (mem : Memory) (k : nat) :
  forall usart,
    enabled usart = true ->
    IT_TXE (peripheral usart) = true ->
    exists usart' sent,
      services mem usart (repeat tx_ready k) = Some (mem, usart', sent) /\
      IT_TXE (peripheral usart') = true /\
      (fillLevel (txBuffer usart) = 0 -> sent = []).
Proof.
  induction k as [|k IH]; intros usart Hen Hit.
  - exists usart, []. cbn. auto.
  - cbn [repeat services]. unfold serviceUsart. rewrite Hen.
    cbn [tx_ready FLAG_TXE FLAG_RXNE].
    assert (Hempty : fillLevel (txBuffer usart) = 0 ->
              exists b', bufferPop mem (txBuffer usart) = (false, None, b')
                         /\ fillLevel b' = 0).
    { intros Hf. unfold bufferPop.
      destruct (xSemaphoreTake (mutex (txBuffer usart)));
        [rewrite Hf|]; eexists; (split; [reflexivity|]); cbn; exact Hf. }
    destruct (bufferPop_cases mem (txBuffer usart))
      as [(d & b' & E)|(b' & E)]; rewrite E.
    + set (u1 := mkUSART _ _ b' _).
      destruct (IH u1 eq_refl eq_refl) as (u' & sent & Es & Hi & _).
      rewrite Es. exists u', ([Z.land d 255] ++ sent).
      split; [reflexivity|]. split; [exact Hi|].
      intros Hf. destruct (Hempty Hf) as (b2 & E2 & _). congruence.
    + set (u1 := set_txBuffer usart b').
      destruct (IH u1 Hen Hit) as (u' & sent & Es & Hi & Hs).
      rewrite Es. exists u', ([] ++ sent).
      split; [reflexivity|]. split; [exact Hi|].
      intros Hf. destruct (Hempty Hf) as (b2 & E2 & F2).
      rewrite E in E2. injection E2 as <-.
      cbn [app]. apply Hs. exact F2.
Qed.

Lemma txe_interrupt_stays_enabled_witness :
  exists usart' sent,
    services masterBuffer0
             (set_peripheral (channel 8 8) (mkPeripheral true true))
             (repeat tx_ready 3)
    = Some (masterBuffer0, usart', sent) /\
    IT_TXE (peripheral usart') = true /\ sent = [].
Proof.
  destruct (txe_interrupt_stays_enabled masterBuffer0 3
              (set_peripheral (channel 8 8) (mkPeripheral true true)))
    as (usart' & sent & Es & Hi & Hs).
  - by_eval.
  - by_eval.
  - exists usart', sent. split; [exact Es|]. split; [exact Hi|].
    apply Hs. by_eval.
Defined.

(** X13. [rxBytesAvailable] works once: with the mutex of the receive
    buffer free it returns [fillLevel] and leaves that mutex taken (and the
    mutex of the transmit buffer free); the next call returns 0 whatever
    the fill level, [readBytes] returns 0, and a push into the receive
    buffer never returns. *)
Theorem rxBytesAvailable_once (usart : USART) :
  mutex (rxBuffer usart) = false ->
  let '(r, usart') := rxBytesAvailable usart in
  r = fillLevel (rxBuffer usart) /\
  mutex (rxBuffer usart') = true /\
  mutex (txBuffer usart') = false /\
  fst (rxBytesAvailable usart') = 0 /\
  forall mem buf n d,
    readBytes mem usart' buf n = (0, buf, usart') /\
    bufferPush mem (rxBuffer usart') d = None.
Proof.
  intros Hm. unfold rxBytesAvailable at 1. rewrite (take_free _ Hm).
  set (u' := mkUSART _ _ _ _).
  assert (Hm' : mutex (rxBuffer u') = true) by reflexivity.
  split; [reflexivity|]. split; [exact Hm'|]. split; [reflexivity|].
  split.
  - destruct (rx_mutex_taken (fun _ => 0) u' (fun _ => 0) 0 0 0 Hm')
      as (_ & _ & _ & -> & _). reflexivity.
  - intros mem buf n d.
    destruct (rx_mutex_taken mem u' buf n 0 d Hm') as (A & _ & _ & _ & E).
    split; assumption.
Qed.

Lemma rxBytesAvailable_once_witness :
  let '(r, usart') := rxBytesAvailable (snd (demo_rx [65; 66; 67])) in
  r = 3 /\ fst (rxBytesAvailable usart') = 0.
Proof.
  assert (H1 : mutex (rxBuffer (snd (demo_rx [65; 66; 67]))) = false)
    by by_eval.
  assert (F : fillLevel (rxBuffer (snd (demo_rx [65; 66; 67]))) = 3)
    by by_eval.
  pose proof (rxBytesAvailable_once (snd (demo_rx [65; 66; 67])) H1) as H.
  destruct (rxBytesAvailable (snd (demo_rx [65; 66; 67]))) as [r usart'].
  destruct H as (-> & _ & _ & H0 & _). split; [exact F|exact H0].
Defined.

(** X14. The passes of [mainLoop] keep the invariants of both buffers:
    from a channel whose buffers satisfy them with the mutexes free, every
    sequence of passes returns, both buffers keep their region,
    [0 <= fillLevel <= length] and [head] and [tail] inside the region, and
    at most one byte is sent per pass. *)
Theorem services_keep_invariants (hws : list USART_Flags) :
  forall mem usart,
    chan_ok (mkState mem usart) ->
    exists mem' usart' sent,
      services mem usart hws = Some (mem', usart', sent) /\
      chan_ok (mkState mem' usart') /\
      same_region usart usart' /\
      enabled usart' = enabled usart /\
      (List.length sent <= List.length hws)%nat.
Proof.
  induction hws as [|hw hws IH]; intros mem usart Hok.
  - exists mem, usart, []. cbn [services List.length].
    unfold same_region. auto 8.
  - assert (Hstep : exists mem1 usart1 sent1,
              serviceUsart mem usart hw = Some (mem1, usart1, sent1) /\
              chan_ok (mkState mem1 usart1) /\
              same_region usart usart1 /\
              enabled usart1 = enabled usart /\
              (List.length sent1 <= 1)%nat).
    { destruct Hok as [Htx Hrx]. cbn [st_usart] in *.
      unfold serviceUsart, chan_ok, same_region.
      destruct (enabled usart) eqn:Hen;
        [|exists mem, usart, []; cbn; auto 8].
      pose proof (bufferPop_ok mem _ Htx) as (Hp & Bp & Lp).
      assert (Hmid : exists usart1 sent1,
                (if FLAG_TXE hw
                 then match bufferPop mem (txBuffer usart) with
                      | (true, Some data, tx) =>
                          (mkUSART
                             (USART_ITConfig_TXE (peripheral usart) true)
                             true tx (rxBuffer usart), [Z.land data 255])
                      | (_, _, tx) => (set_txBuffer usart tx, [])
                      end
                 else (set_peripheral usart
                         (USART_ITConfig_TXE (peripheral usart) false), []))
                = (usart1, sent1) /\
                buf_ok (txBuffer usart1) /\
                base (txBuffer usart1) = base (txBuffer usart) /\
                length (txBuffer usart1) = length (txBuffer usart) /\
                rxBuffer usart1 = rxBuffer usart /\
                enabled usart1 = true /\
                (List.length sent1 <= 1)%nat).
      { destruct (FLAG_TXE hw).
        - destruct (bufferPop_cases mem (txBuffer usart))
            as [(d & b' & E)|(b' & E)]; rewrite E in *; cbn [snd] in *;
            eexists; eexists; (split; [reflexivity|]);
            cbn [txBuffer rxBuffer enabled set_txBuffer List.length];
            (split; [exact Hp|]); (split; [exact Bp|]);
            (split; [exact Lp|]); (split; [reflexivity|]);
            (split; [reflexivity || exact Hen|]); lia.
        - eexists. eexists. split; [reflexivity|].
          cbn [txBuffer rxBuffer enabled set_peripheral List.length].
          split; [exact Htx|]. split; [reflexivity|].
          split; [reflexivity|]. split; [reflexivity|].
          split; [exact Hen|]. lia. }
      destruct Hmid as (usart1 & sent1 & -> & H1 & B1 & L1 & R1 & E1 & S1).
      destruct (FLAG_RXNE hw).
      + rewrite R1.
        destruct (bufferPush_ok mem (rxBuffer usart) (DR hw mod 256) Hrx)
          as (mem' & rx' & Ep & Hq & Bq & Lq).
        rewrite Ep. eexists. eexists. eexists. split; [reflexivity|].
        cbn [st_usart txBuffer rxBuffer enabled]. auto 10.
      + eexists. eexists. eexists. split; [reflexivity|].
        cbn [st_usart]. rewrite R1. auto 10. }
    destruct Hstep as (mem1 & usart1 & sent1 & E1 & Hok1 & G1 & En1 & S1).
    destruct (IH mem1 usart1 Hok1)
      as (mem' & usart' & sent & Es & Hok' & G' & En' & S').
    exists mem', usart', (sent1 ++ sent). cbn [services].
    rewrite E1, Es. split; [reflexivity|]. split; [exact Hok'|].
    split; [|split; [congruence|]].
    + unfold same_region in *. repeat split; lia.
    + rewrite length_app. cbn [List.length]. lia.
Qed.

Lemma services_keep_invariants_witness :
  exists mem' usart' sent,
    services masterBuffer0 (channel 8 8) [tx_ready; rx_ready 65; tx_ready]
    = Some (mem', usart', sent) /\
    ring_ok (txBuffer usart') /\ ring_ok (rxBuffer usart').
Proof.
  assert (H1 : chan_ok (mkState masterBuffer0 (channel 8 8))) by by_eval.
  destruct (services_keep_invariants [tx_ready; rx_ready 65; tx_ready]
              masterBuffer0 (channel 8 8) H1)
    as (mem' & usart' & sent & Es & ((_ & R1 & _) & (_ & R2 & _)) & _).
  exists mem', usart', sent. split; [exact Es|]. split; assumption.
Defined.
